(** * alfa-auth: the turn-processing gateway of [src/index.js]

    A shallow embedding of the Teams bot gateway: process start-up, the
    restify handler chains, the error boundary [onTurnError], the OAuth
    callback page and the last-resort rejection handler.  The code of
    [src/index.js] is translated function by function; the collaborators it
    calls but does not contain (the state store and its scoped accessors,
    the adapter, the bot's dispatcher, the HTTP plugins) are modelled from
    the specification and marked as such. *)

From Stdlib Require Import String Ascii List ZArith Lia DecimalString.
From stdpp Require Import base option gmap strings list fin_maps.

Local Open Scope string_scope.
Local Open Scope list_scope.

(** ** JavaScript values *)

Module Js.

(** An error object as the handlers read it: [error.message] and
    [error.stack] may be absent ([undefined]). *)
Record Error := mkError {
  name : string;
  message : option string;
  stack : option string
}.

(** Truthiness of a possibly-undefined string: [undefined] and [''] are
    falsy. *)
Definition truthy (v : option string) : bool :=
  match v with
  | Some s => negb (String.eqb s EmptyString)
  | None => false
  end.

(** [a || b] on possibly-undefined strings. *)
Definition or (a b : option string) : option string :=
  if truthy a then a else b.

(** [a || 'literal'], whose result is always a string. *)
Definition or_lit (a : option string) (b : string) : string :=
  match or a (Some b) with
  | Some s => s
  | None => b
  end.

(** [`${v}`] for a possibly-undefined string. *)
Definition tpl (v : option string) : string :=
  match v with
  | Some s => s
  | None => "undefined"
  end.

(** [Error.prototype.toString]. *)
Definition toString (e : Error) : string :=
  let msg := match message e with Some m => m | None => EmptyString end in
  if String.eqb (name e) EmptyString then msg
  else if String.eqb msg EmptyString then name e
  else name e +:+ ": " +:+ msg.

(** [haystack.includes(needle)]. *)
Fixpoint includes (needle haystack : string) : bool :=
  String.prefix needle haystack ||
  match haystack with
  | EmptyString => false
  | String _ rest => includes needle rest
  end.

End Js.

(** ** Data model *)

(** [activity.type]: the dispatcher distinguishes two values and treats
    every other one alike. *)
Inductive ActivityType :=
  | MessageActivity
  | InvokeActivity
  | OtherActivity (t : string).

Definition activityTypeOf (t : string) : ActivityType :=
  if String.eqb t "message" then MessageActivity
  else if String.eqb t "invoke" then InvokeActivity
  else OtherActivity t.

(** The parsed request body, [req.body]: a JSON object every field of which
    may be missing. *)
Record JsonBody := mkBody {
  body_type : option string;
  body_name : option string;
  body_text : option string;
  body_channelId : option string;
  body_conversationId : option string;
  body_fromId : option string;
  body_tenantId : option string
}.

(** A well-formed inbound activity, as a Turn Context carries it. *)
Record Activity := mkActivity {
  act_type : ActivityType;
  act_name : option string;
  act_text : option string;
  act_channelId : option string;
  act_conversationId : string;
  act_fromId : option string;
  act_tenantId : option string
}.

(** An activity sent back to the user through a Turn Context. *)
Record OutActivity := mkOut {
  out_type : ActivityType;
  out_text : string;
  out_channelId : option string;
  out_conversationId : string
}.

(** Values kept in state property bags. *)
Inductive JsonValue :=
  | JNum (z : Z)
  | JStr (s : string)
  | JBool (b : bool).

#[global] Instance JsonValue_eq_dec : EqDecision JsonValue.
Proof. solve_decision. Defined.

Abbreviation Bag := (gmap string JsonValue).

(** The two scoped state accessors created in [index.js]. *)
Inductive BotState :=
  | conversationState
  | userState.

#[global] Instance BotState_eq_dec : EqDecision BotState.
Proof. solve_decision. Defined.

(** Modelled from the spec: the scope key of a state partition, (channel,
    conversation) for Conversation State and (channel, user) for User
    State (the key derivation lives in the state accessors, which are not
    part of src/index.js). *)
Inductive Scope :=
  | ConversationScope (channel : option string) (conversation : string)
  | UserScope (channel : option string) (user : option string).

#[global] Instance Scope_eq_dec : EqDecision Scope.
Proof. solve_decision. Defined.

#[global] Instance Scope_countable : Countable Scope.
Proof.
  refine (inj_countable'
    (fun s => match s with
              | ConversationScope c k => inl (c, k)
              | UserScope c u => inr (c, u)
              end)
    (fun x => match x with
              | inl (c, k) => ConversationScope c k
              | inr (c, u) => UserScope c u
              end) _).
  by intros [].
Defined.

Definition storageKey (k : BotState) (a : Activity) : Scope :=
  match k with
  | conversationState => ConversationScope (act_channelId a) (act_conversationId a)
  | userState => UserScope (act_channelId a) (act_fromId a)
  end.

(** [new MainDialog()] and [new TeamsBot(conversationState, userState,
    dialog)]: the process-wide singletons. *)
Inductive MainDialog := NewMainDialog.

Record TeamsBot := NewTeamsBot {
  bot_conversationState : BotState;
  bot_userState : BotState;
  bot_dialog : MainDialog
}.

Definition dialog : MainDialog := NewMainDialog.
Definition bot : TeamsBot := NewTeamsBot conversationState userState dialog.

(** Keys of a turn-state bag: strings such as ['bot'], and the private key
    under which each state accessor caches what it loaded. *)
Inductive TurnKey :=
  | StrKey (s : string)
  | CacheKey (k : BotState).

#[global] Instance TurnKey_eq_dec : EqDecision TurnKey.
Proof. solve_decision. Defined.

#[global] Instance TurnKey_countable : Countable TurnKey.
Proof.
  refine (inj_countable'
    (fun k => match k with
              | StrKey s => inl s
              | CacheKey conversationState => inr true
              | CacheKey userState => inr false
              end)
    (fun x => match x with
              | inl s => StrKey s
              | inr true => CacheKey conversationState
              | inr false => CacheKey userState
              end) _).
  by intros [|[]].
Defined.

(** Values of a turn-state bag: the bot handle, or a cached state bag with
    the bag as it was loaded (to tell at flush time whether it changed). *)
Inductive TurnValue :=
  | BotValue (b : TeamsBot)
  | CachedState (loaded current : Bag).

Abbreviation TurnState := (gmap TurnKey TurnValue).

Inductive ConsoleLine :=
  | ConsoleLog (args : list string)
  | ConsoleError (args : list string).

(** A Turn Context is a handle: the activity is immutable, the turn-state
    bag it owns lives in the world under [ctx_id]. *)
Record TurnContext := mkContext {
  ctx_id : nat;
  activity : Activity
}.

(** Everything the handlers can observe or change. *)
Record World := mkWorld {
  memoryStorage : gmap Scope Bag;
  turnStates : gmap nat TurnState;
  nextContext : nat;
  sent : list OutActivity;
  connector : OutActivity -> option Js.Error;
  console : list ConsoleLine;
  publicDir : gmap string string
}.

Definition with_storage (f : gmap Scope Bag -> gmap Scope Bag) (w : World) : World :=
  mkWorld (f (memoryStorage w)) (turnStates w) (nextContext w) (sent w)
          (connector w) (console w) (publicDir w).

Definition with_turnStates (f : gmap nat TurnState -> gmap nat TurnState) (w : World) : World :=
  mkWorld (memoryStorage w) (f (turnStates w)) (nextContext w) (sent w)
          (connector w) (console w) (publicDir w).

Definition with_nextContext (n : nat) (w : World) : World :=
  mkWorld (memoryStorage w) (turnStates w) n (sent w)
          (connector w) (console w) (publicDir w).

Definition with_sent (f : list OutActivity -> list OutActivity) (w : World) : World :=
  mkWorld (memoryStorage w) (turnStates w) (nextContext w) (f (sent w))
          (connector w) (console w) (publicDir w).

Definition with_console (f : list ConsoleLine -> list ConsoleLine) (w : World) : World :=
  mkWorld (memoryStorage w) (turnStates w) (nextContext w) (sent w)
          (connector w) (f (console w)) (publicDir w).

(** ** The effect monad: world passing with exceptions *)

Inductive Outcome (A : Type) :=
  | Ok (a : A)
  | Throw (e : Js.Error).
Arguments Ok {A} a.
Arguments Throw {A} e.

Definition M (A : Type) : Type := World -> Outcome A * World.

#[global] Instance M_ret : MRet M := fun A a w => (Ok a, w).

#[global] Instance M_bind : MBind M := fun A B f m w =>
  match m w with
  | (Ok a, w') => f a w'
  | (Throw e, w') => (Throw e, w')
  end.

Definition throw {A} (e : Js.Error) : M A := fun w => (Throw e, w).

(** [try { body } catch (e) { handler(e) }] *)
Definition try_catch {A} (body : M A) (handler : Js.Error -> M A) : M A := fun w =>
  match body w with
  | (Ok a, w') => (Ok a, w')
  | (Throw e, w') => handler e w'
  end.

Definition modify (f : World -> World) : M unit := fun w => (Ok tt, f w).
Definition gets {A} (f : World -> A) : M A := fun w => (Ok (f w), w).

Definition console_log (args : list string) : M unit :=
  modify (with_console (fun c => c ++ [ConsoleLog args])).

Definition console_error (args : list string) : M unit :=
  modify (with_console (fun c => c ++ [ConsoleError args])).

(** ** The Turn Context and the scoped state accessors *)

(** [context.turnState]: the bag the world holds for this context (empty if
    nothing was ever put in it). *)
Definition turnState (w : World) (context : TurnContext) : TurnState :=
  default ∅ (turnStates w !! ctx_id context).

Definition update_turnState (context : TurnContext) (f : TurnState -> TurnState)
    (w : World) : World :=
  with_turnStates (fun ts => <[ctx_id context := f (turnState w context)]> ts) w.

(** Modelled from the spec: [context.sendActivity(text)], the Turn
    Context's output channel (the Turn Context class is not part of
    src/index.js).  The message activity is handed to the connector, which
    either accepts it or rejects the call with an error. *)
Definition sendActivity (context : TurnContext) (text : string) : M unit := fun w =>
  let out := mkOut MessageActivity text
                   (act_channelId (activity context))
                   (act_conversationId (activity context)) in
  let w' := with_sent (fun s => s ++ [out]) w in
  match connector w out with
  | None => (Ok tt, w')
  | Some e => (Throw e, w')
  end.

Module State.

(** Modelled from the spec: the memory Store ("get(scope) -> bag,
    set(scope, bag), delete(scope)"); a scope never written reads as the
    empty bag.  index.js only constructs it ([new MemoryStorage()]). *)
Definition read (w : World) (s : Scope) : Bag :=
  default ∅ (memoryStorage w !! s).

(** Modelled from the spec: a scoped accessor loads its bag from the
    Store on first access in a turn and keeps it in the turn-state bag
    (the accessors [ConversationState] / [UserState] are not part of
    src/index.js). *)
Definition load (k : BotState) (context : TurnContext) : M Bag := fun w =>
  match turnState w context !! CacheKey k with
  | Some (CachedState _ current) => (Ok current, w)
  | _ =>
      let bag := read w (storageKey k (activity context)) in
      (Ok bag, update_turnState context (<[CacheKey k := CachedState bag bag]>) w)
  end.

(** Modelled from the spec: a handler's write goes to the bag cached for
    this turn, not to the Store. *)
Definition set (k : BotState) (context : TurnContext) (bag : Bag) : M unit := fun w =>
  let loaded :=
    match turnState w context !! CacheKey k with
    | Some (CachedState l _) => l
    | _ => read w (storageKey k (activity context))
    end in
  (Ok tt, update_turnState context (<[CacheKey k := CachedState loaded bag]>) w).

(** Modelled from the spec: the flush ("persist in-memory mutations to
    the Store"): a bag changed during the turn is written under its scope
    key; an unchanged or never loaded one writes nothing. *)
Definition saveChanges (k : BotState) (context : TurnContext) : M unit := fun w =>
  match turnState w context !! CacheKey k with
  | Some (CachedState loaded current) =>
      if decide (loaded = current) then (Ok tt, w)
      else
        (Ok tt,
         update_turnState context (<[CacheKey k := CachedState current current]>)
           (with_storage (<[storageKey k (activity context) := current]>) w))
  | _ => (Ok tt, w)
  end.

(** Modelled from the spec: "delete(scope)" through an accessor drops the
    bag cached for this turn and deletes the scope's entry from the
    Store. *)
Definition delete (k : BotState) (context : TurnContext) : M unit := fun w =>
  (Ok tt,
   with_storage (base.delete (storageKey k (activity context)))
     (update_turnState context (base.delete (CacheKey k)) w)).

(** What the accessor yields for this context now: the cached bag if
    there is one, otherwise the stored one. *)
Definition current (k : BotState) (context : TurnContext) (w : World) : Bag :=
  match turnState w context !! CacheKey k with
  | Some (CachedState _ c) => c
  | _ => read w (storageKey k (activity context))
  end.

End State.

(** ** The error boundary (index.js, lines 43-53) *)

Definition apologyPrefix : string := "Lo siento, ocurrió un error. ".
Definition defaultErrorText : string := "Ocurrió un error inesperado.".

(** [const errorMsg = error.message || 'Ocurrió un error inesperado.'] *)
Definition errorMsg (error : Js.Error) : string :=
  Js.or_lit (Js.message error) defaultErrorText.

Definition onTurnError (context : TurnContext) (error : Js.Error) : M unit :=
  console_error [String "010" " [onTurnError] Error no manejado: " +:+ Js.toString error];;
  console_error ["Stack: " +:+ Js.tpl (Js.stack error)];;
  (* Limpiar estado *)
  State.delete conversationState context;;
  (* Enviar mensaje al usuario *)
  sendActivity context (apologyPrefix +:+ errorMsg error).

(** ** The bot's dispatcher and the adapter's turn pipeline *)

(** What one run of the dialog logic does to the bags it was given: the
    bags as it left them, the replies it sent, and how it ended (the value
    for the transport layer, or the exception it raised). *)
Record HandlerResult := mkResult {
  conversation' : Bag;
  user' : Bag;
  replies : list string;
  completion : Outcome (option string)
}.

Definition DialogLogic : Type := Activity -> Bag -> Bag -> HandlerResult.

Fixpoint sendAll (context : TurnContext) (texts : list string) : M unit :=
  match texts with
  | [] => mret tt
  | t :: rest => sendActivity context t;; sendAll context rest
  end.

Section Dispatcher.

(** The dialog engine's message handler and its invoke handlers keyed by
    [activity.name] ([None]: a name no handler is registered for).  They
    live in [./dialogs/mainDialog] and are opaque here. *)
Variable onMessage : DialogLogic.
Variable onInvoke : string -> option DialogLogic.

(** Modelled from the spec: a handler reads and writes Conversation and
    User State through the accessors bound to this context; exceptions
    propagate (the invocation of the dialog logic is in
    [./bots/teamsBot], not part of src/index.js). *)
Definition runHandler (h : DialogLogic) (context : TurnContext) : M (option string) :=
  conv ← State.load conversationState context;
  user ← State.load userState context;
  let r := h (activity context) conv user in
  State.set conversationState context (conversation' r);;
  State.set userState context (user' r);;
  sendAll context (replies r);;
  match completion r with
  | Ok v => mret v
  | Throw e => throw e
  end.

(** Modelled from the spec: steps 1-4 of the dispatcher, routing by
    activity type ([TeamsBot] is in [./bots/teamsBot], not part of
    src/index.js). *)
Definition route (context : TurnContext) : M (option string) :=
  match act_type (activity context) with
  | MessageActivity => runHandler onMessage context
  | InvokeActivity =>
      match act_name (activity context) ≫= onInvoke with
      | Some h => runHandler h context
      | None => mret None
      end
  | OtherActivity _ => mret None
  end.

(** Modelled from the spec: [bot.run(context)], the dispatcher's single
    entry point; step 5 is the save point: on successful completion both
    states are flushed. *)
Definition run (b : TeamsBot) (context : TurnContext) : M (option string) :=
  v ← route context;
  State.saveChanges (bot_conversationState b) context;;
  State.saveChanges (bot_userState b) context;;
  mret v.

End Dispatcher.

Module Adapter.

Definition malformedActivity : Js.Error :=
  Js.mkError "MalformedActivity" (Some "activity is missing required fields") None.

(** Modelled from the spec: an activity is well-formed when the required
    fields (type, conversation id) are present. *)
Definition toActivity (b : JsonBody) : option Activity :=
  match body_type b, body_conversationId b with
  | Some t, Some c =>
      Some (mkActivity (activityTypeOf t) (body_name b) (body_text b)
                       (body_channelId b) c (body_fromId b) (body_tenantId b))
  | _, _ => None
  end.

(** Modelled from the spec: Turn Context construction, from the
    deserialized activity; the new context's turn-state bag is "empty
    except for injected values", and nothing is injected into it here:
    the adapter (botbuilder's [CloudAdapter], not part of src/index.js)
    builds the context from the activity and reads no [turnState]
    property of the request. *)
Definition createContext (a : Activity) : M TurnContext :=
  fun w =>
    let context := mkContext (nextContext w) a in
    (Ok context,
     with_nextContext (S (nextContext w))
       (with_turnStates (<[nextContext w := ∅]>) w)).

(** Modelled from the spec: the Error Boundary wraps the dispatcher
    invocation; an exception escaping the logic is given to
    [onTurnError], and one escaping [onTurnError] propagates. *)
Definition runTurn (logic : TurnContext -> M (option string))
    (context : TurnContext) : M (option string) :=
  try_catch (logic context) (fun err => onTurnError context err;; mret None).

End Adapter.

(** ** HTTP: requests, responses and restify's handler chains *)

Inductive Method := GET | POST | PUT | DELETE | OPTIONS | HEAD.

#[global] Instance Method_eq_dec : EqDecision Method.
Proof. solve_decision. Defined.

(** The request body on the wire, before [bodyParser] has run. *)
Inductive RawBody :=
  | NoBody
  | JsonDocument (b : JsonBody)
  | Unparseable.

Record Request := mkRequest {
  req_method : Method;
  req_path : string;
  req_query : list (string * string);
  req_rawBody : RawBody;
  req_body : option JsonBody;
  req_turnState : option TurnState
}.

(** What a response carries as its body: bytes written with [res.write], or
    the argument given to [res.send] (a string, or a value sent as JSON). *)
Inductive Content :=
  | Written (bytes : string)
  | Text (s : string)
  | Json (s : string).

Record Response := mkResponse {
  statusCode : nat;
  headers : gmap string string;
  content : option Content;
  finished : bool
}.

Definition newResponse : Response := mkResponse 200 ∅ None false.

(** [res.header(key, value)]; every header of this program is set at most
    once on a response, so only the plain assignment is modelled. *)
Definition res_header (key value : string) (r : Response) : Response :=
  mkResponse (statusCode r) (<[key := value]> (headers r)) (content r) (finished r).

Definition res_status (code : nat) (r : Response) : Response :=
  mkResponse code (headers r) (content r) (finished r).

Definition res_send (c : Content) (r : Response) : Response :=
  mkResponse (statusCode r) (headers r) (Some c) true.

(** [res.writeHead(code, headers)]: the given headers are merged over those
    already set. *)
Definition res_writeHead (code : nat) (hs : list (string * string)) (r : Response) : Response :=
  mkResponse code (foldr (fun kv m => <[kv.1 := kv.2]> m) (headers r) hs)
             (content r) (finished r).

Definition res_write (chunk : string) (r : Response) : Response :=
  let sofar := match content r with Some (Written b) => b | _ => EmptyString end in
  mkResponse (statusCode r) (headers r) (Some (Written (sofar +:+ chunk))) (finished r).

Definition res_end (r : Response) : Response :=
  mkResponse (statusCode r) (headers r) (content r) true.

(** The pair of mutable objects every handler receives. *)
Record Http := mkHttp {
  req : Request;
  res : Response
}.

Definition set_req (f : Request -> Request) (x : Http) : Http := mkHttp (f (req x)) (res x).
Definition set_res (f : Response -> Response) (x : Http) : Http := mkHttp (req x) (f (res x)).

(** How a handler hands over: [next()], [next(err)] with an HTTP error,
    or, for an [async] handler, a promise that rejects with an error. *)
Inductive Next :=
  | next
  | next_err (code : nat) (msg : string)
  | rejected (e : Js.Error).

Definition Handler : Type := Http -> M (Http * Next).

(** [Buffer.byteLength(s)]: strings are kept as their UTF-8 bytes. *)
Definition byteLength (s : string) : nat := String.length s.

(** A number used as a header value is written in decimal. *)
Definition numberToString (n : nat) : string := NilZero.string_of_uint (Nat.to_uint n).

(** *** The handlers of index.js *)

(** [crossOrigin] (lines 83-89). *)
Definition crossOrigin : Handler := fun x =>
  let x := set_res (res_header "Access-Control-Allow-Origin" "*") x in
  let x := set_res (res_header "Access-Control-Allow-Headers"
                      "X-Requested-With, Content-Type, Accept, Origin, Authorization") x in
  let x := set_res (res_header "Access-Control-Allow-Methods"
                      "GET, POST, PUT, DELETE, OPTIONS") x in
  mret (x, next).

(** [addBotToTurnState] (lines 93-101). *)
Definition addBotToTurnState : Handler := fun x =>
  (* Si no existe turnState, crearlo *)
  let x :=
    match req_turnState (req x) with
    | None =>
        set_req (fun r => mkRequest (req_method r) (req_path r) (req_query r)
                            (req_rawBody r) (req_body r) (Some ∅)) x
    | Some _ => x
    end in
  (* Agregar la instancia del bot al estado del turno *)
  let x :=
    set_req (fun r => mkRequest (req_method r) (req_path r) (req_query r)
                        (req_rawBody r) (req_body r)
                        ((<[StrKey "bot" := BotValue bot]>) <$> req_turnState r)) x in
  mret (x, next).

Definition htmlContent : string := "
    <html>
        <body>
            <p>Autenticación completada. Puedes cerrar esta ventana y volver a Teams.</p>
            <script>
                setTimeout(function() {
                    window.close();
                }, 3000);
            </script>
        </body>
    </html>".

(** The handler of [GET /oauthcallback] (lines 139-162). *)
Definition oauthcallback : Handler := fun x =>
  console_log ["Recibida solicitud a /oauthcallback"];;
  let x := set_res (res_writeHead 200
                      [("Content-Length", numberToString (byteLength htmlContent));
                       ("Content-Type", "text/html")]) x in
  let x := set_res (res_write htmlContent) x in
  let x := set_res res_end x in
  mret (x, next).

Definition dquote : string := String "034" EmptyString.

(** The error of line 128: [send] is called on the number that
    [res.status(500)] returns. *)
Definition sendOnNumber : Js.Error :=
  Js.mkError "TypeError" (Some "res.status(...).send is not a function")
             (Some "TypeError: res.status(...).send is not a function").

Section Gateway.

Variable onMessage : DialogLogic.
Variable onInvoke : string -> option DialogLogic.

(** [restify.pre.sanitizePath()]: the HTTP library's path normaliser,
    taken as given. *)
Variable sanitizePath : string -> string.

(** Modelled from the spec: [adapter.process(req, res, logic)]: a
    malformed activity is a rejected dispatch; otherwise a fresh Turn
    Context is built, the logic runs inside the error boundary, and the
    response is 200, empty or with the value an invoke handler produced
    (the adapter is botbuilder's [CloudAdapter], not part of
    src/index.js). *)
Definition adapter_process (x : Http) (logic : TurnContext -> M (option string)) : M Http :=
  match req_body (req x) ≫= Adapter.toActivity with
  | None => throw Adapter.malformedActivity
  | Some a =>
      context ← Adapter.createContext a;
      v ← Adapter.runTurn logic context;
      let respond :=
        match v with
        | Some value => res_send (Json value)
        | None => res_end
        end in
      mret (set_res (fun r => respond (res_status 200 r)) x)
  end.

(** The activity log of the messages route (lines 106-120). *)
Definition logActivity (x : Http) : M unit :=
  try_catch
    (let body := req_body (req x) in
     match body with
     | Some body =>
         console_log ["Actividad recibida - Tipo: " +:+ Js.tpl (body_type body)
                      +:+ ", Nombre: " +:+ Js.or_lit (body_name body) "N/A"];;
         (* Log adicional para mensajes *)
         if decide (body_type body = Some "message") then
           console_log ["Mensaje: " +:+ dquote +:+ Js.tpl (body_text body) +:+ dquote]
         else if decide (body_type body = Some "invoke") then
           console_log ["Actividad de invoke: " +:+ dquote +:+ Js.tpl (body_name body)
                        +:+ dquote]
         else mret tt
     | None => mret tt
     end)
    (fun e => console_log ["Error al registrar actividad:"; Js.tpl (Js.message e)]).

(** The handler of [POST /api/messages] (lines 104-130), an [async]
    function.  In its [catch] block, line 128 is
    [res.status(500).send('Error interno del servidor')]: restify's
    [res.status] sets the status code and returns the code, a number, and
    a number has no [send], so the call throws and the handler's promise
    rejects with the status set and nothing sent. *)
Definition messages : Handler := fun x =>
  (* Registro de actividad *)
  logActivity x;;
  try_catch
    (* Procesar la solicitud con el adaptador *)
    (x ← adapter_process x (fun context => run onMessage onInvoke bot context);
     mret (x, next))
    (fun error =>
       console_error ["Error al procesar mensaje:"; Js.tpl (Js.message error)];;
       console_error [Js.tpl (Js.stack error)];;
       let x := set_res (res_status 500) x in
       mret (x, rejected sendOnNumber)).

(** *** The plugins of the HTTP library *)

Definition sanitizePathHandler : Handler := fun x =>
  mret (set_req (fun r => mkRequest (req_method r) (sanitizePath (req_path r))
                            (req_query r) (req_rawBody r) (req_body r)
                            (req_turnState r)) x, next).

(** [restify.plugins.bodyParser()], by its documented contract: requests
    without a body pass; a JSON body is parsed into [req.body]; a body
    that does not parse ends the chain with 400. *)
Definition bodyParser : Handler := fun x =>
  match req_method (req x) with
  | GET | HEAD => mret (x, next)
  | _ =>
      match req_rawBody (req x) with
      | NoBody => mret (x, next)
      | JsonDocument b =>
          mret (set_req (fun r => mkRequest (req_method r) (req_path r) (req_query r)
                                    (req_rawBody r) (Some b) (req_turnState r)) x, next)
      | Unparseable => mret (x, next_err 400 "Invalid JSON")
      end
  end.

(** Modelled from the spec: [GET /public/*] "serves files from a fixed
    local directory verbatim" ([restify.plugins.serveStatic], not part of
    src/index.js); a path with no file ends the chain with 404. *)
Definition serveStatic : Handler := fun x w =>
  match publicDir w !! req_path (req x) with
  | Some file =>
      (Ok (set_res (fun r => res_end (res_write file (res_writeHead 200 [] r))) x, next), w)
  | None => (Ok (x, next_err 404 "Not Found"), w)
  end.

(** *** The server *)

Record Route := mkRoute {
  route_method : Method;
  route_path : string;
  route_handlers : list Handler
}.

Record Server := mkServer {
  server_pre : list Handler;
  server_use : list Handler;
  server_routes : list Route
}.

Definition createServer : Server := mkServer [] [] [].

Definition pre (h : Handler) (s : Server) : Server :=
  mkServer (server_pre s ++ [h]) (server_use s) (server_routes s).

Definition use (h : Handler) (s : Server) : Server :=
  mkServer (server_pre s) (server_use s ++ [h]) (server_routes s).

Definition mount (m : Method) (path : string) (hs : list Handler) (s : Server) : Server :=
  mkServer (server_pre s) (server_use s) (server_routes s ++ [mkRoute m path hs]).

(** The server as index.js configures it, call by call (lines 69-162). *)
Definition server : Server :=
  let s := createServer in
  let s := use bodyParser s in
  (* Configuración del preflight para CORS *)
  let s := pre sanitizePathHandler s in
  let s := use crossOrigin s in
  (* Ruta principal para mensajes de bot, con el middleware de bot *)
  let s := mount POST "/api/messages" [addBotToTurnState; messages] s in
  (* Rutas adicionales *)
  let s := mount GET "/public/*" [serveStatic] s in
  (* Ruta para manejar solicitudes OAuth *)
  let s := mount GET "/oauthcallback" [oauthcallback] s in
  s.

(** A route path matches literally, or up to a final [*]. *)
Fixpoint matchPath (pattern path : string) : bool :=
  match pattern, path with
  | String "*" EmptyString, _ => true
  | EmptyString, EmptyString => true
  | String a pattern', String b path' => Ascii.eqb a b && matchPath pattern' path'
  | _, _ => false
  end.

Definition routeMatches (r : Request) (rt : Route) : bool :=
  bool_decide (route_method rt = req_method r) && matchPath (route_path rt) (req_path r).

Definition lookupRoute (s : Server) (r : Request) : option Route :=
  List.find (routeMatches r) (server_routes s).

(** A chain runs its handlers in order until one does not call [next()];
    the error of a rejected [async] handler is handed to [next] for it. *)
Fixpoint runChain (hs : list Handler) (x : Http) : M (Http * Next) :=
  match hs with
  | [] => mret (x, next)
  | h :: rest =>
      r ← h x;
      match r.2 with
      | next => runChain rest r.1
      | next_err _ _ => mret r
      | rejected _ => mret r
      end
  end.

(** An error handed to [next] is sent as the response, on the response
    object as the chain left it; an error that is not an HTTP error is
    sent with status 500. *)
Definition finish (r : Http * Next) : Response :=
  match r.2 with
  | next => res r.1
  | next_err code msg => res_send (Json msg) (res_status code (res r.1))
  | rejected e => res_send (Json (Js.tpl (Js.message e))) (res_status 500 (res r.1))
  end.

Definition showMethod (m : Method) : string :=
  match m with
  | GET => "GET"
  | POST => "POST"
  | PUT => "PUT"
  | DELETE => "DELETE"
  | OPTIONS => "OPTIONS"
  | HEAD => "HEAD"
  end.

Fixpoint join (sep : string) (l : list string) : string :=
  match l with
  | [] => EmptyString
  | [a] => a
  | a :: rest => a +:+ sep +:+ join sep rest
  end.

(** The verbs under which the request's path is mounted. *)
Definition mountedVerbs (s : Server) (r : Request) : list Method :=
  route_method <$>
    List.filter (fun rt => matchPath (route_path rt) (req_path r)) (server_routes s).

(** The answer to a request no route was found for: 405 with an [Allow]
    header when its path is mounted under other verbs, 404 otherwise. *)
Definition notRouted (s : Server) (x : Http) : Response :=
  match mountedVerbs s (req x) with
  | [] => finish (x, next_err 404 "Not Found")
  | verbs =>
      finish (set_res (res_header "Allow" (join ", " (showMethod <$> verbs))) x,
              next_err 405 "Method Not Allowed")
  end.

(** restify's request life cycle, by its documented contract: the [pre]
    chain runs for every request; the [use] chain and the route's own
    handlers run only once a route has been found. *)
Definition handleRequest (s : Server) (r : Request) : M Response :=
  p ← runChain (server_pre s) (mkHttp r newResponse);
  match p.2 with
  | next =>
      match lookupRoute s (req p.1) with
      | None => mret (notRouted s p.1)
      | Some rt =>
          q ← runChain (server_use s ++ route_handlers rt) p.1;
          mret (finish q)
      end
  | _ => mret (finish p)
  end.

End Gateway.

(** ** Process start-up (the top level of index.js) *)

Module Process.

Inductive Port :=
  | PortName (s : string)
  | PortNumber (n : nat).

(** What the process does that the outside can see, in order. *)
Inductive Event :=
  | Output (line : ConsoleLine)
  | Exit (code : nat)
  | Listen (port : Port)
  | InstallRejectionHandler.

Record State := mkState {
  trace : list Event;
  exited : option nat;
  listening : option Port;
  rejectionHandler : bool
}.

Definition initial : State := mkState [] None None false.

(** Top-level statements run in order; [process.exit] ends the run, the
    statements after it are never executed ([None]). *)
Definition Boot (A : Type) : Type := State -> option A * State.

#[global] Instance Boot_ret : MRet Boot := fun A a p => (Some a, p).

#[global] Instance Boot_bind : MBind Boot := fun A B f m p =>
  match m p with
  | (Some a, p') => f a p'
  | (None, p') => (None, p')
  end.

Definition emit (e : Event) (p : State) : State :=
  mkState (trace p ++ [e]) (exited p) (listening p) (rejectionHandler p).

Definition console_error (args : list string) : Boot unit := fun p =>
  (Some tt, emit (Output (ConsoleError args)) p).

Definition console_log (args : list string) : Boot unit := fun p =>
  (Some tt, emit (Output (ConsoleLog args)) p).

Definition process_exit (code : nat) : Boot unit := fun p =>
  let p := emit (Exit code) p in
  (None, mkState (trace p) (Some code) (listening p) (rejectionHandler p)).

(** [server.listen(port, callback)]: binds the port.  The binding is taken
    to succeed; a port the system refuses ends the process at this call and
    is not part of the model. *)
Definition server_listen (port : Port) : Boot unit := fun p =>
  let p := emit (Listen port) p in
  (Some tt, mkState (trace p) (exited p) (Some port) (rejectionHandler p)).

(** [process.on('unhandledRejection', handler)]. *)
Definition process_on_unhandledRejection : Boot unit := fun p =>
  let p := emit InstallRejectionHandler p in
  (Some tt, mkState (trace p) (exited p) (listening p) true).

(** [process.env.connectionName || process.env.OAUTH_CONNECTION_NAME] *)
Definition connectionName (env : gmap string string) : option string :=
  Js.or (env !! "connectionName") (env !! "OAUTH_CONNECTION_NAME").

(** [process.env.PORT || process.env.port || 3978] *)
Definition port (env : gmap string string) : Port :=
  match Js.or (env !! "PORT") (env !! "port") with
  | Some s => if Js.truthy (Some s) then PortName s else PortNumber 3978
  | None => PortNumber 3978
  end.

Definition showPort (p : Port) : string :=
  match p with
  | PortName s => s
  | PortNumber n => numberToString n
  end.

(** The callback of [server.listen] (lines 74-78), run once the server
    is bound, with the server's name and URL. *)
Definition listenCallback (env : gmap string string) (serverName serverUrl : string)
    : Boot unit :=
  console_log [String "010" serverName +:+ " escuchando en " +:+ serverUrl];;
  console_log [String "010" "Para usar Bot Framework Emulator, ve a https://docs.microsoft.com/en-us/azure/bot-service/bot-service-debug-emulator"];;
  console_log [String "010" "Nombre de conexión OAuth configurado: "
               +:+ Js.tpl (connectionName env)].

(** The top level of index.js, in statement order. *)
Definition main (env : gmap string string) : Boot unit :=
  (* Validar configuración de OAuth *)
  let connectionName := connectionName env in
  (if negb (Js.truthy connectionName) then
     console_error ["ERROR: Nombre de conexión OAuth no configurado. Por favor, configura la variable connectionName en el archivo .env"];;
     process_exit 1
   else mret tt);;
  (* the adapter, the storage, the two states, the dialog, the bot and the
     server are constructed here: nothing the outside can see as long as
     the constructors return, which the model takes for granted *)
  (* Configurar puerto *)
  let port := port env in
  server_listen port;;
  (* Control de errores no manejados *)
  process_on_unhandledRejection;;
  console_log ["Bot iniciado. Ejecutándose en el puerto " +:+ showPort port];;
  console_log ["Nombre de conexión OAuth configurado: " +:+ Js.tpl connectionName];;
  console_log ["Para verificar la configuración de autenticación, revisa el archivo .env"].

(** The process after its top level has run. *)
Definition start (env : gmap string string) : State := (main env initial).2.

(** The handler of ['unhandledRejection'] (lines 165-168). *)
Definition onUnhandledRejection (reason : string) : Boot unit :=
  console_error ["Unhandled Promise Rejection:"; reason].
  (* No cerrar el proceso, solo registrar *)

(** The runtime's treatment of a promise that rejects unobserved: with a
    handler installed the handler runs and nothing else happens; without
    one the process is terminated.  A process that has exited receives
    nothing. *)
Definition unobservedRejection (reason : string) (p : State) : State :=
  match exited p with
  | Some _ => p
  | None =>
      if rejectionHandler p then (onUnhandledRejection reason p).2
      else (process_exit 1 p).2
  end.

Definition isListen (e : Event) : bool :=
  match e with
  | Listen _ => true
  | _ => false
  end.

Definition isExit (e : Event) : bool :=
  match e with
  | Exit _ => true
  | _ => false
  end.

End Process.

(** * Vocabulary of the statements *)

(** ** The error boundary *)

(** The apology a context's user is sent for an error. *)
Definition apology (context : TurnContext) (error : Js.Error) : OutActivity :=
  mkOut MessageActivity (apologyPrefix +:+ errorMsg error)
        (act_channelId (activity context)) (act_conversationId (activity context)).

(** The world the boundary leaves behind, whatever the connector says. *)
Definition recovered (context : TurnContext) (error : Js.Error) (w : World) : World :=
  with_sent (fun s => s ++ [apology context error])
    (with_storage (base.delete (storageKey conversationState (activity context)))
      (update_turnState context (base.delete (CacheKey conversationState))
        (with_console
           (fun c => (c ++ [ConsoleError [String "010" " [onTurnError] Error no manejado: "
                                          +:+ Js.toString error]])
                       ++ [ConsoleError ["Stack: " +:+ Js.tpl (Js.stack error)]]) w))).

(** ** Start-up *)

(** The line printed when no connection name is configured. *)
Definition missingNameError : Process.Event :=
  Process.Output (ConsoleError ["ERROR: Nombre de conexión OAuth no configurado. Por favor, configura la variable connectionName en el archivo .env"]).

(** The line the last-resort handler prints for a rejection. *)
Definition rejectionLine (reason : string) : Process.Event :=
  Process.Output (ConsoleError ["Unhandled Promise Rejection:"; reason]).

(** ** The routes *)

(** The lines [logActivity] prints for a request body. *)
Definition activityLines (b : option JsonBody) : list ConsoleLine :=
  match b with
  | None => []
  | Some body =>
      ConsoleLog ["Actividad recibida - Tipo: " +:+ Js.tpl (body_type body)
                  +:+ ", Nombre: " +:+ Js.or_lit (body_name body) "N/A"]
      :: (if decide (body_type body = Some "message") then
            [ConsoleLog ["Mensaje: " +:+ dquote +:+ Js.tpl (body_text body) +:+ dquote]]
          else if decide (body_type body = Some "invoke") then
            [ConsoleLog ["Actividad de invoke: " +:+ dquote +:+ Js.tpl (body_name body)
                         +:+ dquote]]
          else [])
  end.

Definition logged (x : Http) (w : World) : World :=
  with_console (fun c => c ++ activityLines (req_body (req x))) w.

(** The request and response as the messages handler leaves them when the
    dispatch failed: the status set to 500 and nothing sent. *)
Definition halfAnswered (x : Http) : Http :=
  mkHttp (req x)
         (mkResponse 500 (headers (res x)) (content (res x)) (finished (res x))).

Definition failureLines (e : Js.Error) : list ConsoleLine :=
  [ConsoleError ["Error al procesar mensaje:"; Js.tpl (Js.message e)];
   ConsoleError [Js.tpl (Js.stack e)]].

(** Whether [bodyParser] lets a request through, and what it leaves in
    [req.body]. *)
Definition parses (r : Request) : bool :=
  match req_method r with
  | GET | HEAD => true
  | _ => match req_rawBody r with Unparseable => false | _ => true end
  end.

Definition parsed (r : Request) : Request :=
  match req_method r with
  | GET | HEAD => r
  | _ =>
      match req_rawBody r with
      | JsonDocument b =>
          mkRequest (req_method r) (req_path r) (req_query r) (req_rawBody r)
                    (Some b) (req_turnState r)
      | _ => r
      end
  end.

(** The three headers [crossOrigin] sets. *)
Definition corsHeaders (h : gmap string string) : gmap string string :=
  <["Access-Control-Allow-Methods" := "GET, POST, PUT, DELETE, OPTIONS"]>
    (<["Access-Control-Allow-Headers" :=
         "X-Requested-With, Content-Type, Accept, Origin, Authorization"]>
       (<["Access-Control-Allow-Origin" := "*"]> h)).

Definition permitsAnyOrigin (h : gmap string string) : Prop :=
  h !! "Access-Control-Allow-Origin" = Some "*"
  /\ h !! "Access-Control-Allow-Methods" = Some "GET, POST, PUT, DELETE, OPTIONS"
  /\ h !! "Access-Control-Allow-Headers"
     = Some "X-Requested-With, Content-Type, Accept, Origin, Authorization".

Definition publicRoute : Route := mkRoute GET "/public/*" [serveStatic].

Definition oauthRoute : Route := mkRoute GET "/oauthcallback" [oauthcallback].

(** The one response [GET /oauthcallback] ever gives. *)
Definition oauthPage : Response :=
  mkResponse 200
    (<["Content-Length" := "290"]> (<["Content-Type" := "text/html"]> (corsHeaders ∅)))
    (Some (Written htmlContent)) true.

Definition oauthLine : ConsoleLine := ConsoleLog ["Recibida solicitud a /oauthcallback"].

(** The request with the bot handle set under ['bot'] in its turn-state
    bag (created empty when the request has none). *)
Definition withBot (x : Http) : Http :=
  mkHttp
    (mkRequest (req_method (req x)) (req_path (req x)) (req_query (req x))
               (req_rawBody (req x)) (req_body (req x))
               (Some (<[StrKey "bot" := BotValue bot]>
                        (default ∅ (req_turnState (req x))))))
    (res x).

(** The response [adapter.process] leaves when the turn ended with the
    value [v]. *)
Definition answered (x : Http) (v : option string) : Http :=
  set_res (fun r => match v with
                    | Some value => res_send (Json value)
                    | None => res_end
                    end (res_status 200 r)) x.

(** A computation creates no Turn Context and leaves the string-keyed
    entries of every turn-state bag as they are. *)
Definition keepsNamed {A} (m : M A) : Prop :=
  forall w,
    nextContext (m w).2 = nextContext w
    /\ forall c s, turnState (m w).2 c !! StrKey s = turnState w c !! StrKey s.

(** A computation touches the Store at the scopes [ks] only. *)
Definition touchesOnly {A} (ks : list Scope) (m : M A) : Prop :=
  forall w s, s ∉ ks -> memoryStorage (m w).2 !! s = memoryStorage w !! s.

Section Turns.

Variable onMessage : DialogLogic.
Variable onInvoke : string -> option DialogLogic.
Variable sanitizePath : string -> string.

(** The request as [sanitizePath] hands it on. *)
Definition sanitized (r : Request) : Request :=
  mkRequest (req_method r) (sanitizePath (req_path r)) (req_query r)
            (req_rawBody r) (req_body r) (req_turnState r).

Definition messagesRoute : Route :=
  mkRoute POST "/api/messages" [addBotToTurnState; messages onMessage onInvoke].

(** The world after a series of turns, one after the other. *)
Definition afterTurns (w : World) (cs : list TurnContext) : World :=
  foldl (fun w' c => (Adapter.runTurn (run onMessage onInvoke bot) c w').2) w cs.

End Turns.

(** ** Concrete inputs *)

Module Sample.

(** The scenario activity of the specification: a message "hello" in
    conversation [c1] from user [u1]. *)
Definition hello : Activity :=
  mkActivity MessageActivity None (Some "hello") None "c1" (Some "u1") None.

Definition context : TurnContext := mkContext 0 hello.

(** A world with an empty Store and a connector that accepts everything. *)
Definition world : World := mkWorld ∅ ∅ 1 [] (fun _ => None) [] ∅.

(** A Store that already holds a bag for the conversation and one for
    the user. *)
Definition populated : World :=
  mkWorld (<[ConversationScope None "c1" := {["count" := JNum 1]}]>
            (<[UserScope None (Some "u1") := {["lang" := JStr "es"]}]> ∅))
          ∅ 1 [] (fun _ => None) [] ∅.

Definition boom : Js.Error :=
  Js.mkError "Error" (Some "boom") (Some "Error: boom at MainDialog.run").

(** An error object whose message is the empty string. *)
Definition silent : Js.Error :=
  Js.mkError "Error" (Some EmptyString) (Some "Error at MainDialog.run").

Definition failing (e : Js.Error) : TurnContext -> M (option string) :=
  fun _ => throw e.

(** An environment that sets a port but no connection name, and one that
    names the connection. *)
Definition unconfigured : gmap string string := {["PORT" := "8080"]}.
Definition configured : gmap string string := {["connectionName" := "teams-oauth"]}.

End Sample.

(** ** Concrete requests *)

Module SampleHttp.

(** A dialog that counts the messages of a conversation. *)
Definition counting : DialogLogic := fun _ conv user =>
  let n := match conv !! "count" with Some (JNum z) => z | _ => 0%Z end in
  mkResult (<["count" := JNum (n + 1)]> conv) user ["ok"] (Ok None).

(** A dialog that fails half-way, after writing to its state. *)
Definition crashing : DialogLogic := fun _ conv user =>
  mkResult (<["step" := JStr "half-done"]> conv) user [] (Throw Sample.boom).

Definition noInvoke : string -> option DialogLogic := fun _ => None.

(** A path normaliser that leaves clean paths alone. *)
Definition keep : string -> string := fun p => p.

Definition helloBody : JsonBody :=
  mkBody (Some "message") None (Some "hello") None (Some "c1") (Some "u1") None.

Definition postHello : Request :=
  mkRequest POST "/api/messages" [] (JsonDocument helloBody) None None.

(** The same request after [bodyParser]. *)
Definition parsedHello : Http :=
  mkHttp (mkRequest POST "/api/messages" [] (JsonDocument helloBody) (Some helloBody) None)
         newResponse.

Definition postGarbage : Request :=
  mkRequest POST "/api/messages" [] Unparseable None None.

Definition getCallback : Request :=
  mkRequest GET "/oauthcallback" [] NoBody None None.

Definition getCallbackWithQuery : Request :=
  mkRequest GET "/oauthcallback" [("code", "4/0AX4XfWh"); ("state", "xyz")] NoBody None None.

Definition unreachable : Js.Error :=
  Js.mkError "Error" (Some "connect ECONNREFUSED") (Some "Error: connect ECONNREFUSED").

(** A world whose connector rejects every outbound activity. *)
Definition offline : World := mkWorld ∅ ∅ 1 [] (fun _ => Some unreachable) [] ∅.

(** The server with the counting dialog behind it. *)
Definition gateway : Server := server counting noInvoke keep.

(** The world in which the crashing dialog and the failed apology leave
    the offline world. *)
Definition afterFailedRecovery : World :=
  (adapter_process parsedHello (fun context => run crashing noInvoke bot context)
     (logged parsedHello offline)).2.

End SampleHttp.

(** ** Concrete turns *)

Module SampleTurns.

(** A turn of another conversation, and the next turn of [c1]. *)
Definition elsewhere : TurnContext :=
  mkContext 1 (mkActivity MessageActivity None (Some "hi") None "c2" (Some "u2") None).

Definition following : TurnContext := mkContext 2 Sample.hello.

(** The world after the first turn of the scenario. *)
Definition afterFirst : World :=
  (run SampleHttp.counting SampleHttp.noInvoke bot Sample.context Sample.populated).2.

End SampleTurns.

(** * More of index.js *)

(** ** The adapter's configuration (index.js, lines 31-37) *)

(** The object given to [new ConfigurationBotFrameworkAuthentication]. *)
Record AuthenticationOptions := mkOptions {
  MicrosoftAppId : option string;
  MicrosoftAppPassword : option string;
  MicrosoftAppTenantId : option string;
  MicrosoftAppType : option string;
  OAuthConnectionName : option string
}.

Definition botFrameworkAuthentication (env : gmap string string) : AuthenticationOptions :=
  mkOptions
    (Js.or (env !! "MicrosoftAppId") (env !! "MICROSOFT_APP_ID"))
    (Js.or (env !! "MicrosoftAppPassword") (env !! "MICROSOFT_APP_PASSWORD"))
    (Js.or (env !! "MicrosoftAppTenantId") (env !! "MICROSOFT_APP_TENANT_ID"))
    (Js.or (Js.or (env !! "MicrosoftAppType") (env !! "MICROSOFT_APP_TYPE"))
           (Some "MultiTenant"))
    (Process.connectionName env).

(** A variable that is unset or set to the empty string. *)
Definition blank (v : option string) : Prop := v = None \/ v = Some EmptyString.

(** ** The messages route, end to end *)

(** The request and response as the handler of the messages route
    receives them: the path sanitized, the JSON body parsed into
    [req.body], the bot handle in [req.turnState], the CORS headers set. *)
Definition prepared (r : Request) : Http :=
  mkHttp
    (mkRequest POST "/api/messages" (req_query r) (req_rawBody r)
               (match req_rawBody r with
                | JsonDocument b => Some b
                | _ => req_body r
                end)
               (Some (<[StrKey "bot" := BotValue bot]> (default ∅ (req_turnState r)))))
    (mkResponse 200 (corsHeaders ∅) None false).

(** ** More concrete inputs *)

Module SampleEnv.

(** The connection name is set, but to the empty string. *)
Definition emptyName : gmap string string :=
  {["connectionName" := EmptyString; "PORT" := "8080"]}.

(** Only the upper-case spelling names the connection. *)
Definition upperCase : gmap string string :=
  {["connectionName" := EmptyString; "OAUTH_CONNECTION_NAME" := "graph"]}.

(** [PORT] is empty, [port] is not. *)
Definition lowerPort : gmap string string :=
  {["connectionName" := "graph"; "PORT" := EmptyString; "port" := "3000"]}.

Definition putMessages : Request :=
  mkRequest PUT "/api/messages" [] (JsonDocument SampleHttp.helloBody) None None.

Definition getMissing : Request :=
  mkRequest GET "/public/missing.png" [] NoBody None None.

(** A request that reaches a handler with a header already set on its
    response. *)
Definition tagged : Http :=
  mkHttp SampleHttp.getCallback
         (mkResponse 404 {["X-Request-Id" := "42"]} None false).

End SampleEnv.

(** * Verification *)

(** ** The error boundary *)

Section Boundary.

Implicit Types (context : TurnContext) (error : Js.Error) (w : World).

Lemma onTurnError_unfold context error w :
  onTurnError context error w =
  (match connector w (apology context error) with
   | None => Ok tt
   | Some e => Throw e
   end, recovered context error w).
Proof.
  unfold onTurnError, recovered, mbind, M_bind, console_error, modify,
    State.delete, sendActivity; simpl.
  fold (apology context error).
  destruct (connector w (apology context error)); reflexivity.
Qed.

Lemma recovered_storage context error w :
  memoryStorage (recovered context error w)
  = base.delete (storageKey conversationState (activity context)) (memoryStorage w).
Proof. reflexivity. Qed.

Lemma recovered_sent context error w :
  sent (recovered context error w) = sent w ++ [apology context error].
Proof. reflexivity. Qed.

Lemma recovered_turnState context error w :
  turnState (recovered context error w) context
  = base.delete (CacheKey conversationState) (turnState w context).
Proof.
  unfold turnState at 1. simpl. by rewrite lookup_insert_eq.
Qed.

Lemma recovered_current_empty context error w :
  State.current conversationState context (recovered context error w) = ∅.
Proof.
  unfold State.current. rewrite recovered_turnState, lookup_delete_eq.
  unfold State.read. rewrite recovered_storage, lookup_delete_eq. reflexivity.
Qed.

Lemma errorMsg_present error m :
  Js.message error = Some m -> m <> EmptyString -> errorMsg error = m.
Proof.
  intros Hm Hne. unfold errorMsg, Js.or_lit, Js.or, Js.truthy. rewrite Hm.
  destruct (String.eqb_spec m EmptyString); [contradiction | reflexivity].
Qed.

Lemma errorMsg_absent error :
  Js.message error = None \/ Js.message error = Some EmptyString ->
  errorMsg error = defaultErrorText.
Proof. unfold errorMsg. intros [-> | ->]; reflexivity. Qed.

Lemma errorMsg_nonempty error : errorMsg error <> EmptyString.
Proof.
  unfold errorMsg, Js.or_lit, Js.or, Js.truthy.
  destruct (Js.message error) as [m|]; [|discriminate].
  destruct (String.eqb_spec m EmptyString); simpl; [discriminate | assumption].
Qed.

Lemma runTurn_throw logic context w e w1 :
  logic context w = (Throw e, w1) ->
  Adapter.runTurn logic context w =
  (match connector w1 (apology context e) with
   | None => Ok None
   | Some e' => Throw e'
   end, recovered context e w1).
Proof.
  intros H. unfold Adapter.runTurn, try_catch. rewrite H.
  unfold mbind, M_bind. rewrite onTurnError_unfold.
  destruct (connector w1 (apology context e)); reflexivity.
Qed.

Lemma runTurn_ok logic context w v w1 :
  logic context w = (Ok v, w1) ->
  Adapter.runTurn logic context w = (Ok v, w1).
Proof. intros H. unfold Adapter.runTurn, try_catch. by rewrite H. Qed.

End Boundary.

(** C1, as stated, would make the apology the prefix followed by
    [error.message] for every error.  For an error whose message is the
    empty string the boundary sends the prefix followed by the default
    text instead. *)
Lemma apology_text_counterexample :
  Js.message Sample.silent = Some EmptyString
  /\ out_text <$> sent (Adapter.runTurn (Sample.failing Sample.silent) Sample.context
                          Sample.populated).2
     <> [apologyPrefix +:+ EmptyString]
  /\ out_text <$> sent (Adapter.runTurn (Sample.failing Sample.silent) Sample.context
                          Sample.populated).2
     = [apologyPrefix +:+ defaultErrorText].
Proof.
  split; [reflexivity|]. split; [|reflexivity].
  intros H. vm_compute in H. discriminate H.
Qed.

(** C1 (amended): in every turn whose handler throws, the error boundary
    deletes the Conversation State of that conversation (its Store entry
    and the bag cached for the turn, so the state reads as empty right
    after) and hands exactly one message activity to the connector; its
    text is the fixed apology prefix followed by the error's message text
    when that is non-empty and by the fixed default text otherwise, and it
    is computed from [error.message] alone: two errors with the same
    message produce the same activity whatever their stack traces. *)
Theorem boundary_resets_and_apologises
    (logic : TurnContext -> M (option string)) (context : TurnContext)
    (w w1 : World) (e : Js.Error) :
  logic context w = (Throw e, w1) ->
  let w2 := (Adapter.runTurn logic context w).2 in
  memoryStorage w2 !! storageKey conversationState (activity context) = None
  /\ State.current conversationState context w2 = ∅
  /\ sent w2 =
       sent w1 ++
       [mkOut MessageActivity
          (apologyPrefix +:+
             match Js.message e with
             | Some (String c m) => String c m
             | _ => defaultErrorText
             end)
          (act_channelId (activity context)) (act_conversationId (activity context))]
  /\ forall e', Js.message e' = Js.message e -> apology context e' = apology context e.
Proof.
  intros H w2. subst w2. rewrite (runTurn_throw _ _ _ _ _ H). simpl.
  split; [apply lookup_delete_eq|].
  split; [apply recovered_current_empty|].
  split.
  - unfold apology, errorMsg, Js.or_lit, Js.or, Js.truthy.
    destruct (Js.message e) as [[|c m]|]; reflexivity.
  - intros e' He'. unfold apology, errorMsg. by rewrite He'.
Qed.

Lemma boundary_resets_and_apologises_witness :
  Sample.failing Sample.boom Sample.context Sample.populated
    = (Throw Sample.boom, Sample.populated)
  /\ out_text <$> sent (Adapter.runTurn (Sample.failing Sample.boom) Sample.context
                          Sample.populated).2
     = ["Lo siento, ocurrió un error. boom"]
  /\ State.current conversationState Sample.context
       (Adapter.runTurn (Sample.failing Sample.boom) Sample.context Sample.populated).2 = ∅.
Proof.
  split; [reflexivity|].
  destruct (boundary_resets_and_apologises (Sample.failing Sample.boom) Sample.context
              Sample.populated Sample.populated Sample.boom eq_refl)
    as (_ & Hcur & Hsent & _).
  split; [rewrite Hsent; reflexivity | exact Hcur].
Defined.

(** C9: the recovery path touches one Store entry only, the Conversation
    State scope of the failing turn: the Store after [onTurnError] is the
    Store before it with that one key deleted, so every User State entry
    (and every other conversation's entry) is exactly as it was, and the
    User State bag cached for the turn is kept as well. *)
Theorem boundary_leaves_user_state
    (context : TurnContext) (error : Js.Error) (w : World) :
  let w' := (onTurnError context error w).2 in
  memoryStorage w'
    = base.delete (storageKey conversationState (activity context)) (memoryStorage w)
  /\ (forall channel user,
        memoryStorage w' !! UserScope channel user
        = memoryStorage w !! UserScope channel user)
  /\ (forall s, s <> storageKey conversationState (activity context) ->
        memoryStorage w' !! s = memoryStorage w !! s)
  /\ turnState w' context !! CacheKey userState
     = turnState w context !! CacheKey userState.
Proof.
  intros w'. subst w'. rewrite onTurnError_unfold. cbn [snd].
  rewrite recovered_storage, recovered_turnState.
  split; [reflexivity|]. split; [|split].
  - intros channel user. by rewrite lookup_delete_ne.
  - intros s Hs. by rewrite lookup_delete_ne.
  - by rewrite lookup_delete_ne.
Qed.

(** C10: when the error carries no message text ([error.message] absent or
    empty) the apology is the prefix followed by the fixed default text
    'Ocurrió un error inesperado.'; and whatever the error, the text after
    the prefix is never empty. *)
Theorem boundary_default_text
    (context : TurnContext) (error : Js.Error) (w : World) :
  Js.message error = None \/ Js.message error = Some EmptyString ->
  sent (onTurnError context error w).2 =
    sent w ++
    [mkOut MessageActivity ("Lo siento, ocurrió un error. " +:+ "Ocurrió un error inesperado.")
       (act_channelId (activity context)) (act_conversationId (activity context))]
  /\ forall error', errorMsg error' <> EmptyString.
Proof.
  intros H. rewrite onTurnError_unfold. simpl. split.
  - unfold apology. by rewrite (errorMsg_absent _ H).
  - apply errorMsg_nonempty.
Qed.

Lemma boundary_default_text_witness :
  (Js.message Sample.silent = None \/ Js.message Sample.silent = Some EmptyString)
  /\ out_text <$> sent (onTurnError Sample.context Sample.silent Sample.world).2
     = ["Lo siento, ocurrió un error. Ocurrió un error inesperado."].
Proof.
  split; [right; reflexivity|].
  rewrite (proj1 (boundary_default_text Sample.context Sample.silent Sample.world
                    (or_intror eq_refl))).
  reflexivity.
Defined.

(** ** Start-up and the last-resort handler *)

Section Startup.

Import Process.

Implicit Types (env : gmap string string) (p : State).

Lemma start_unconfigured env :
  Js.truthy (connectionName env) = false ->
  start env = mkState [missingNameError; Exit 1] (Some 1) None false.
Proof.
  intros H. unfold start, main, mbind, Boot_bind. rewrite H. reflexivity.
Qed.

Lemma start_configured env :
  Js.truthy (connectionName env) = true ->
  exited (start env) = None
  /\ listening (start env) = Some (port env)
  /\ rejectionHandler (start env) = true.
Proof.
  intros H. unfold start, main, mbind, Boot_bind. rewrite H. by simpl.
Qed.

Lemma start_exited_or_configured env :
  exited (start env) = None -> Js.truthy (connectionName env) = true.
Proof.
  intros H. destruct (Js.truthy (connectionName env)) eqn:E; [reflexivity|].
  rewrite (start_unconfigured _ E) in H. discriminate.
Qed.

Lemma unobservedRejection_handled reason p :
  exited p = None -> rejectionHandler p = true ->
  unobservedRejection reason p
  = mkState (trace p ++ [rejectionLine reason]) None (listening p) true.
Proof.
  intros He Hh. unfold unobservedRejection. rewrite He, Hh.
  unfold onUnhandledRejection, console_error, emit. simpl. by rewrite He, Hh.
Qed.

Lemma rejections_handled reasons : forall p,
  exited p = None -> rejectionHandler p = true ->
  foldl (fun q r => unobservedRejection r q) p reasons
  = mkState (trace p ++ (rejectionLine <$> reasons)) None (listening p) true.
Proof.
  induction reasons as [|r rs IH]; intros p He Hh; simpl.
  - rewrite app_nil_r. destruct p; simpl in *; by subst.
  - rewrite (unobservedRejection_handled _ _ He Hh), IH by reflexivity.
    simpl. by rewrite <- app_assoc.
Qed.

End Startup.

(** C3: when no OAuth connection name is set in the environment (neither
    [connectionName] nor [OAUTH_CONNECTION_NAME]), the process logs the
    configuration error and exits with code 1 as its first and only acts:
    no port is ever bound, [server.listen] is never reached. *)
Theorem startup_exits_before_listening (env : gmap string string) :
  env !! "connectionName" = None ->
  env !! "OAUTH_CONNECTION_NAME" = None ->
  let p := Process.start env in
  Process.exited p = Some 1
  /\ Process.listening p = None
  /\ filter (fun e => Process.isListen e = true) (Process.trace p) = []
  /\ Process.trace p = [missingNameError; Process.Exit 1].
Proof.
  intros H1 H2 p. subst p.
  rewrite start_unconfigured; [by repeat split|].
  unfold Process.connectionName, Js.or. by rewrite H1, H2.
Qed.

Lemma startup_exits_before_listening_witness :
  Sample.unconfigured !! "connectionName" = None
  /\ Sample.unconfigured !! "OAUTH_CONNECTION_NAME" = None
  /\ Process.listening (Process.start Sample.unconfigured) = None.
Proof.
  split; [reflexivity|]. split; [reflexivity|].
  exact (proj1 (proj2 (startup_exits_before_listening Sample.unconfigured eq_refl eq_refl))).
Defined.

(** C7: once the process has started, every promise rejection that nobody
    observes reaches the handler installed at start-up, which logs it and
    does nothing else: after any series of such rejections the process has
    not exited, still listens on its port, and its output has grown by
    exactly one error line per rejection. *)
Theorem unobserved_rejections_only_logged
    (env : gmap string string) (reasons : list string) :
  Process.exited (Process.start env) = None ->
  let p := foldl (fun q r => Process.unobservedRejection r q) (Process.start env) reasons in
  Process.exited p = None
  /\ Process.listening p = Process.listening (Process.start env)
  /\ Process.trace p = Process.trace (Process.start env) ++ (rejectionLine <$> reasons)
  /\ filter (fun e => Process.isExit e = true) (Process.trace p) = [].
Proof.
  intros H p. subst p.
  pose proof (start_exited_or_configured _ H) as Hc.
  destruct (start_configured _ Hc) as (He & Hl & Hh).
  rewrite (rejections_handled reasons _ He Hh). simpl.
  split; [reflexivity|]. split; [reflexivity|]. split; [reflexivity|].
  rewrite filter_app.
  assert (filter (fun e => Process.isExit e = true) (Process.trace (Process.start env)) = [])
    as ->.
  { unfold Process.start, Process.main, mbind, Process.Boot_bind. rewrite Hc. reflexivity. }
  simpl. induction reasons as [|r rs IH]; [reflexivity|].
  simpl. rewrite filter_cons. simpl.
  destruct (decide (false = true)); [discriminate | exact IH].
Qed.

Lemma unobserved_rejections_only_logged_witness :
  Process.exited (Process.start Sample.configured) = None
  /\ Process.exited
       (foldl (fun q r => Process.unobservedRejection r q) (Process.start Sample.configured)
              ["timeout"; "socket hang up"]) = None.
Proof.
  split; [reflexivity|].
  exact (proj1 (unobserved_rejections_only_logged Sample.configured
                  ["timeout"; "socket hang up"] eq_refl)).
Defined.

(** ** The HTTP routes *)

Section Routes.

Variable onMessage : DialogLogic.
Variable onInvoke : string -> option DialogLogic.
Variable sanitizePath : string -> string.

Implicit Types (x : Http) (w : World).

Abbreviation logic := (fun context => run onMessage onInvoke bot context).
Abbreviation theServer := (server onMessage onInvoke sanitizePath).

Lemma with_console_nil w : with_console (fun c => c ++ []) w = w.
Proof. destruct w. unfold with_console. simpl. by rewrite app_nil_r. Qed.

Lemma logActivity_unfold x w : logActivity x w = (Ok tt, logged x w).
Proof.
  unfold logActivity, logged, try_catch, activityLines.
  destruct (req_body (req x)) as [body|]; simpl.
  - unfold mbind, M_bind, console_log, modify. simpl.
    repeat case_decide; simpl; unfold with_console; simpl;
      rewrite <- ?app_assoc; reflexivity.
  - by rewrite with_console_nil.
Qed.

Lemma messages_unfold x w :
  messages onMessage onInvoke x w =
  match adapter_process x logic (logged x w) with
  | (Ok x', w') => (Ok (x', next), w')
  | (Throw e, w') =>
      (Ok (halfAnswered x, rejected sendOnNumber),
       with_console (fun c => c ++ failureLines e) w')
  end.
Proof.
  unfold messages, mbind, M_bind. rewrite logActivity_unfold.
  unfold try_catch.
  destruct (adapter_process x logic (logged x w)) as [[x'|e] w']; [reflexivity|].
  unfold console_error, modify, halfAnswered, failureLines, with_console; simpl.
  by rewrite <- app_assoc.
Qed.

Lemma adapter_process_ok x w x' w' (l : TurnContext -> M (option string)) :
  adapter_process x l w = (Ok x', w') ->
  req x' = req x
  /\ headers (res x') = headers (res x)
  /\ statusCode (res x') = 200
  /\ finished (res x') = true.
Proof.
  unfold adapter_process.
  destruct (req_body (req x) ≫= Adapter.toActivity) as [a|]; [|discriminate].
  unfold mbind at 1, M_bind at 1. simpl.
  unfold mbind, M_bind.
  match goal with |- context [Adapter.runTurn l ?c ?w0] =>
    destruct (Adapter.runTurn l c w0) as [[v|e] w1] end; [|discriminate].
  intros [= <- <-]. destruct v; by simpl.
Qed.

Lemma messages_settles x w :
  exists x' n w',
    messages onMessage onInvoke x w = (Ok (x', n), w')
    /\ headers (res x') = headers (res x).
Proof.
  rewrite messages_unfold.
  destruct (adapter_process x logic (logged x w)) as [[x'|e] w'] eqn:E.
  - destruct (adapter_process_ok _ _ _ _ _ E) as (_ & Hh & _). eauto.
  - eexists _, _, _. split; [reflexivity|]. by simpl.
Qed.

(** *** Chains and the request life cycle *)

Lemma runChain_cons (h : Handler) (hs : list Handler) x w :
  runChain (h :: hs) x w =
  match h x w with
  | (Ok (x', next), w') => runChain hs x' w'
  | (Ok (x', n), w') => (Ok (x', n), w')
  | (Throw e, w') => (Throw e, w')
  end.
Proof.
  simpl. unfold mbind, M_bind.
  destruct (h x w) as [[[x' [|code msg|e]]|e] w']; reflexivity.
Qed.

Lemma finish_headers x (n : Next) : headers (finish (x, n)) = headers (res x).
Proof. by destruct n. Qed.

Lemma runChain_nil x w : runChain [] x w = (Ok (x, next), w).
Proof. reflexivity. Qed.

Lemma bodyParser_accepts x w :
  parses (req x) = true ->
  bodyParser x w = (Ok (mkHttp (parsed (req x)) (res x), next), w).
Proof.
  destruct x as [[m p q rb b ts] rs]. unfold parses, parsed, bodyParser. simpl.
  destruct m, rb; (discriminate || reflexivity).
Qed.


Lemma corsHeaders_permit h : permitsAnyOrigin (corsHeaders h).
Proof.
  unfold permitsAnyOrigin, corsHeaders. repeat split.
  - rewrite !lookup_insert_ne by discriminate. apply lookup_insert_eq.
  - apply lookup_insert_eq.
  - rewrite lookup_insert_ne by discriminate. apply lookup_insert_eq.
Qed.

Lemma crossOrigin_unfold x w :
  crossOrigin x w =
  (Ok (mkHttp (req x)
         (mkResponse (statusCode (res x)) (corsHeaders (headers (res x)))
                     (content (res x)) (finished (res x))), next), w).
Proof. reflexivity. Qed.

Lemma handleRequest_unfold r w :
  handleRequest theServer r w =
  match lookupRoute theServer (sanitized sanitizePath r) with
  | None => (Ok (notRouted theServer (mkHttp (sanitized sanitizePath r) newResponse)), w)
  | Some rt =>
      match runChain (bodyParser :: crossOrigin :: route_handlers rt)
                     (mkHttp (sanitized sanitizePath r) newResponse) w with
      | (Ok q, w') => (Ok (finish q), w')
      | (Throw e, w') => (Throw e, w')
      end
  end.
Proof.
  unfold handleRequest, mbind, M_bind. simpl.
  fold (sanitized sanitizePath r).
  destruct (lookupRoute theServer (sanitized sanitizePath r)) as [rt|]; reflexivity.
Qed.

Lemma server_routes_eq :
  server_routes theServer = [(messagesRoute onMessage onInvoke); publicRoute; oauthRoute].
Proof. reflexivity. Qed.

Lemma lookupRoute_cases r rt :
  lookupRoute theServer r = Some rt ->
  rt = (messagesRoute onMessage onInvoke) \/ rt = publicRoute \/ rt = oauthRoute.
Proof.
  unfold lookupRoute. rewrite server_routes_eq. simpl.
  repeat match goal with
         | |- context [routeMatches r ?t] => destruct (routeMatches r t)
         end; intros [= <-]; auto.
Qed.

(** *** The OAuth callback page *)

Lemma lookup_oauthcallback r :
  req_method r = GET -> req_path r = "/oauthcallback" ->
  lookupRoute theServer r = Some oauthRoute.
Proof.
  intros Hm Hp. unfold lookupRoute, routeMatches. rewrite server_routes_eq, Hm, Hp.
  reflexivity.
Qed.

Lemma handle_oauthcallback r w :
  req_method r = GET ->
  sanitizePath (req_path r) = "/oauthcallback" ->
  handleRequest theServer r w
  = (Ok oauthPage, with_console (fun c => c ++ [oauthLine]) w).
Proof.
  intros Hm Hp. rewrite handleRequest_unfold.
  rewrite (lookup_oauthcallback (sanitized sanitizePath r)) by (simpl; assumption).
  rewrite runChain_cons, bodyParser_accepts by (unfold parses; simpl; by rewrite Hm).
  rewrite runChain_cons, crossOrigin_unfold.
  simpl route_handlers. rewrite runChain_cons.
  unfold oauthcallback, mbind, M_bind, console_log, modify. simpl.
  unfold oauthPage, finish, res_end, res_write, res_writeHead, set_res. simpl.
  reflexivity.
Qed.

(** C4: any two [GET /oauthcallback] requests, the first without query
    parameters and the second with whatever query it likes, are answered
    with one and the same response, whatever the Store holds: status
    200, the fixed HTML document as body, [Content-Length] (the
    document's byte length) and [Content-Type: text/html] set; and the
    Store is the same after each request as before it. *)
Theorem oauthcallback_is_fixed (r1 r2 : Request) (w1 w2 : World) :
  req_method r1 = GET -> sanitizePath (req_path r1) = "/oauthcallback" ->
  req_query r1 = [] ->
  req_method r2 = GET -> sanitizePath (req_path r2) = "/oauthcallback" ->
  exists page w1' w2',
    handleRequest theServer r1 w1 = (Ok page, w1')
    /\ handleRequest theServer r2 w2 = (Ok page, w2')
    /\ statusCode page = 200
    /\ content page = Some (Written htmlContent)
    /\ headers page !! "Content-Length" = Some (numberToString (byteLength htmlContent))
    /\ headers page !! "Content-Type" = Some "text/html"
    /\ memoryStorage w1' = memoryStorage w1
    /\ memoryStorage w2' = memoryStorage w2.
Proof.
  intros Hm1 Hp1 _ Hm2 Hp2.
  exists oauthPage, (with_console (fun c => c ++ [oauthLine]) w1),
    (with_console (fun c => c ++ [oauthLine]) w2).
  rewrite !handle_oauthcallback by assumption.
  repeat split; reflexivity.
Qed.

(** *** Turn-state injection *)

Lemma addBotToTurnState_unfold x w :
  addBotToTurnState x w = (Ok (withBot x, next), w).
Proof.
  destruct x as [[m p q rb b [ts|]] rs]; reflexivity.
Qed.

Lemma withBot_idempotent x : withBot (withBot x) = withBot x.
Proof.
  unfold withBot. simpl. by rewrite insert_insert_eq.
Qed.

(** *** Dispatch failures on the messages route *)

(** C6 (code bug): when [adapter.process] raises on a
    [POST /api/messages], for a rejected activity or because the error
    boundary's own recovery failed, the [catch] block of the route logs
    the failure's message and stack and sets the status to 500, and then
    fails itself: line 128 calls [send] on the number that
    [res.status(500)] returns.  The handler rejects with that TypeError,
    nothing has been sent, and the answer the client gets is the server's
    error response for the TypeError, not the plain text
    'Error interno del servidor'. *)
Theorem failed_dispatch_rejects_the_handler x w e w1 :
  adapter_process x logic (logged x w) = (Throw e, w1) ->
  messages onMessage onInvoke x w
    = (Ok (halfAnswered x, rejected sendOnNumber),
       with_console (fun c => c ++ failureLines e) w1)
  /\ statusCode (res (halfAnswered x)) = 500
  /\ content (res (halfAnswered x)) = content (res x)
  /\ finished (res (halfAnswered x)) = finished (res x)
  /\ finish (halfAnswered x, rejected sendOnNumber)
     = mkResponse 500 (headers (res x))
                  (Some (Json "res.status(...).send is not a function")) true
  /\ content (finish (halfAnswered x, rejected sendOnNumber))
     <> Some (Text "Error interno del servidor").
Proof.
  intros H. rewrite messages_unfold, H. by repeat split.
Qed.

(** *** CORS *)

Lemma serveStatic_headers x w :
  exists q w',
    serveStatic x w = (Ok q, w') /\ headers (finish q) = headers (res x).
Proof.
  unfold serveStatic. destruct (publicDir w !! req_path (req x)) as [file|];
    eexists _, _; (split; [reflexivity|]); reflexivity.
Qed.

(** C8 (amended): the CORS headers are set by one server-wide [use]
    handler, not per route, and that handler runs after the body parser:
    every response to a request that matched a registered route and
    whose body the parser accepted carries the three headers (any
    origin; GET, POST, PUT, DELETE, OPTIONS). *)
Theorem routed_responses_carry_cors (r : Request) w :
  is_Some (lookupRoute theServer (sanitized sanitizePath r)) ->
  parses r = true ->
  server_use theServer = [bodyParser; crossOrigin]
  /\ exists response w',
       handleRequest theServer r w = (Ok response, w')
       /\ headers response !! "Access-Control-Allow-Origin" = Some "*"
       /\ headers response !! "Access-Control-Allow-Methods"
          = Some "GET, POST, PUT, DELETE, OPTIONS"
       /\ headers response !! "Access-Control-Allow-Headers"
          = Some "X-Requested-With, Content-Type, Accept, Origin, Authorization".
Proof.
  intros [rt Hrt] Hp. split; [reflexivity|].
  cut (exists response w',
         handleRequest theServer r w = (Ok response, w')
         /\ permitsAnyOrigin (headers response)).
  { intros (response & w' & H & Ho & Hm & Hh). eauto 10. }
  rewrite handleRequest_unfold, Hrt.
  rewrite runChain_cons, bodyParser_accepts by exact Hp.
  rewrite runChain_cons, crossOrigin_unfold.
  destruct (lookupRoute_cases _ _ Hrt) as [-> | [-> | ->]]; simpl route_handlers.
  - rewrite runChain_cons, addBotToTurnState_unfold, runChain_cons.
    match goal with |- context [messages onMessage onInvoke ?x0 w] =>
      destruct (messages_settles x0 w) as (x' & n & w' & -> & Hh) end.
    assert (permitsAnyOrigin (headers (finish (x', n)))) as Hcors
      by (rewrite finish_headers, Hh; apply corsHeaders_permit).
    destruct n; [rewrite runChain_nil| |]; eexists _, _; (split; [reflexivity|]);
      exact Hcors.
  - rewrite runChain_cons.
    match goal with |- context [serveStatic ?x0 w] =>
      destruct (serveStatic_headers x0 w) as ([x' n] & w' & -> & Hh) end.
    assert (permitsAnyOrigin (headers (finish (x', n)))) as Hcors
      by (rewrite Hh; apply corsHeaders_permit).
    destruct n; [rewrite runChain_nil| |]; eexists _, _; (split; [reflexivity|]);
      exact Hcors.
  - rewrite runChain_cons.
    unfold oauthcallback, mbind, M_bind, console_log, modify. simpl.
    eexists _, _. split; [reflexivity|].
    unfold permitsAnyOrigin. simpl. repeat split; reflexivity.
Qed.

End Routes.

Lemma oauthcallback_is_fixed_witness :
  exists page,
    (handleRequest (server SampleHttp.counting SampleHttp.noInvoke SampleHttp.keep)
       SampleHttp.getCallback Sample.world).1 = Ok page
    /\ (handleRequest (server SampleHttp.counting SampleHttp.noInvoke SampleHttp.keep)
          SampleHttp.getCallbackWithQuery Sample.populated).1 = Ok page
    /\ headers page !! "Content-Length" = Some "290".
Proof.
  destruct (oauthcallback_is_fixed SampleHttp.counting SampleHttp.noInvoke SampleHttp.keep
              SampleHttp.getCallback SampleHttp.getCallbackWithQuery
              Sample.world Sample.populated eq_refl eq_refl eq_refl eq_refl eq_refl)
    as (page & w1' & w2' & H1 & H2 & _ & _ & Hlen & _).
  exists page. rewrite H1, H2. repeat split. exact Hlen.
Defined.

Lemma failed_dispatch_rejects_the_handler_witness :
  adapter_process SampleHttp.parsedHello
    (fun context => run SampleHttp.crashing SampleHttp.noInvoke bot context)
    (logged SampleHttp.parsedHello SampleHttp.offline)
  = (Throw SampleHttp.unreachable, SampleHttp.afterFailedRecovery)
  /\ (messages SampleHttp.crashing SampleHttp.noInvoke SampleHttp.parsedHello
        SampleHttp.offline).1
     = Ok (halfAnswered SampleHttp.parsedHello, rejected sendOnNumber).
Proof.
  assert (adapter_process SampleHttp.parsedHello
            (fun context => run SampleHttp.crashing SampleHttp.noInvoke bot context)
            (logged SampleHttp.parsedHello SampleHttp.offline)
          = (Throw SampleHttp.unreachable, SampleHttp.afterFailedRecovery)) as H
    by (vm_compute; reflexivity).
  split; [exact H|].
  by rewrite (proj1 (failed_dispatch_rejects_the_handler _ _ _ _ _ _ H)).
Defined.

(** C8, as stated, would put the CORS headers on every response on every
    route.  A [POST /api/messages] whose body does not parse is answered
    by the body parser, which is registered before [crossOrigin]: the
    response is a 400 without any of the three headers. *)
Lemma cors_counterexample :
  is_Some (lookupRoute SampleHttp.gateway SampleHttp.postGarbage)
  /\ exists response,
       (handleRequest SampleHttp.gateway SampleHttp.postGarbage Sample.world).1 = Ok response
       /\ statusCode response = 400
       /\ headers response !! "Access-Control-Allow-Origin" = None
       /\ headers response !! "Access-Control-Allow-Methods" = None
       /\ headers response !! "Access-Control-Allow-Headers" = None.
Proof.
  split; [eexists; reflexivity|].
  eexists. split; [reflexivity|]. repeat split.
Qed.

Lemma routed_responses_carry_cors_witness :
  is_Some (lookupRoute SampleHttp.gateway (sanitized SampleHttp.keep SampleHttp.postHello))
  /\ parses SampleHttp.postHello = true
  /\ exists response,
       (handleRequest SampleHttp.gateway SampleHttp.postHello Sample.world).1 = Ok response
       /\ headers response !! "Access-Control-Allow-Origin" = Some "*".
Proof.
  assert (is_Some (lookupRoute SampleHttp.gateway
                     (sanitized SampleHttp.keep SampleHttp.postHello))) as Hr
    by (eexists; reflexivity).
  split; [exact Hr|]. split; [reflexivity|].
  destruct (routed_responses_carry_cors SampleHttp.counting SampleHttp.noInvoke SampleHttp.keep
              SampleHttp.postHello Sample.world Hr eq_refl)
    as (_ & response & w' & H & Ho & _).
  exists response. unfold SampleHttp.gateway. rewrite H. split; [reflexivity | exact Ho].
Defined.

(** ** The save point *)

Section Frame.

Lemma touchesOnly_ret {A} ks (a : A) : touchesOnly ks (mret a).
Proof. by intros w s _. Qed.

Lemma touchesOnly_throw {A} ks e : touchesOnly ks (@throw A e).
Proof. by intros w s _. Qed.

Lemma touchesOnly_bind {A B} ks (m : M A) (f : A -> M B) :
  touchesOnly ks m -> (forall a, touchesOnly ks (f a)) -> touchesOnly ks (m ≫= f).
Proof.
  intros Hm Hf w s Hs. unfold mbind, M_bind.
  specialize (Hm w s Hs). destruct (m w) as [[a|e] w1]; simpl in *.
  - by rewrite (Hf a w1 s Hs).
  - exact Hm.
Qed.

Lemma touchesOnly_try_catch {A} ks (m : M A) (h : Js.Error -> M A) :
  touchesOnly ks m -> (forall e, touchesOnly ks (h e)) -> touchesOnly ks (try_catch m h).
Proof.
  intros Hm Hh w s Hs. unfold try_catch.
  specialize (Hm w s Hs). destruct (m w) as [[a|e] w1]; simpl in *.
  - exact Hm.
  - by rewrite (Hh e w1 s Hs).
Qed.

Lemma touchesOnly_console_error ks args : touchesOnly ks (console_error args).
Proof. by intros w s _. Qed.

Lemma touchesOnly_sendActivity ks context text :
  touchesOnly ks (sendActivity context text).
Proof.
  intros w s _. unfold sendActivity. by destruct (connector w _).
Qed.

Lemma touchesOnly_sendAll ks context texts : touchesOnly ks (sendAll context texts).
Proof.
  induction texts as [|t ts IH]; simpl.
  - apply touchesOnly_ret.
  - apply touchesOnly_bind; [apply touchesOnly_sendActivity | intros _; exact IH].
Qed.

Lemma touchesOnly_load ks k context : touchesOnly ks (State.load k context).
Proof.
  intros w s _. unfold State.load.
  by destruct (turnState w context !! CacheKey k) as [[]|].
Qed.

Lemma touchesOnly_set ks k context bag : touchesOnly ks (State.set k context bag).
Proof. by intros w s _. Qed.

Lemma touchesOnly_saveChanges ks k context :
  storageKey k (activity context) ∈ ks -> touchesOnly ks (State.saveChanges k context).
Proof.
  intros Hk w s Hs. unfold State.saveChanges.
  destruct (turnState w context !! CacheKey k) as [[|loaded current]|]; try done.
  case_decide; [done|]. simpl. apply lookup_insert_ne. intros Heq. by subst s.
Qed.

Lemma touchesOnly_delete ks k context :
  storageKey k (activity context) ∈ ks -> touchesOnly ks (State.delete k context).
Proof.
  intros Hk w s Hs. unfold State.delete. simpl. apply lookup_delete_ne. intros Heq. by subst s.
Qed.

Lemma touchesOnly_onTurnError ks context error :
  storageKey conversationState (activity context) ∈ ks ->
  touchesOnly ks (onTurnError context error).
Proof.
  intros Hk. unfold onTurnError.
  repeat (apply touchesOnly_bind; [|intros _]);
    auto using touchesOnly_console_error, touchesOnly_delete, touchesOnly_sendActivity.
Qed.

Variable onMessage : DialogLogic.
Variable onInvoke : string -> option DialogLogic.

Lemma touchesOnly_runHandler ks h context : touchesOnly ks (runHandler h context).
Proof.
  unfold runHandler.
  apply touchesOnly_bind; [apply touchesOnly_load | intros conv].
  apply touchesOnly_bind; [apply touchesOnly_load | intros user].
  apply touchesOnly_bind; [apply touchesOnly_set | intros _].
  apply touchesOnly_bind; [apply touchesOnly_set | intros _].
  apply touchesOnly_bind; [apply touchesOnly_sendAll | intros _].
  destruct (completion _); [apply touchesOnly_ret | apply touchesOnly_throw].
Qed.

Lemma touchesOnly_route ks context : touchesOnly ks (route onMessage onInvoke context).
Proof.
  unfold route. destruct (act_type (activity context)).
  - apply touchesOnly_runHandler.
  - destruct (act_name (activity context) ≫= onInvoke);
      [apply touchesOnly_runHandler | apply touchesOnly_ret].
  - apply touchesOnly_ret.
Qed.

(** A whole turn, failed or not, touches the Store at the two scopes of
    its own context only. *)
Lemma touchesOnly_turn context :
  touchesOnly [storageKey conversationState (activity context);
               storageKey userState (activity context)]
    (Adapter.runTurn (run onMessage onInvoke bot) context).
Proof.
  unfold Adapter.runTurn. apply touchesOnly_try_catch.
  - unfold run.
    apply touchesOnly_bind; [apply touchesOnly_route | intros v].
    apply touchesOnly_bind; [apply touchesOnly_saveChanges; set_solver | intros _].
    apply touchesOnly_bind; [apply touchesOnly_saveChanges; set_solver | intros _].
    apply touchesOnly_ret.
  - intros e. apply touchesOnly_bind; [|intros _; apply touchesOnly_ret].
    apply touchesOnly_onTurnError. set_solver.
Qed.

Lemma afterTurns_elsewhere cs : forall w s,
  Forall (fun c => storageKey conversationState (activity c) <> s
                   /\ storageKey userState (activity c) <> s) cs ->
  memoryStorage (afterTurns onMessage onInvoke w cs) !! s = memoryStorage w !! s.
Proof.
  induction cs as [|c cs IH]; intros w s Hcs; [reflexivity|].
  apply Forall_cons in Hcs as [[Hc Hu] Hrest].
  unfold afterTurns in *. simpl. rewrite (IH _ _ Hrest).
  apply touchesOnly_turn.
  rewrite !not_elem_of_cons. repeat split; [congruence | congruence | apply not_elem_of_nil].
Qed.

(** *** One successful message turn *)

Implicit Types (context : TurnContext) (w : World).

Lemma turnState_update context f w :
  turnState (update_turnState context f w) context = f (turnState w context).
Proof. unfold turnState at 1. simpl. by rewrite lookup_insert_eq. Qed.

Lemma turnState_update_ne context c' f w :
  ctx_id c' <> ctx_id context ->
  turnState (update_turnState context f w) c' = turnState w c'.
Proof. intros H. unfold turnState at 1. simpl. by rewrite lookup_insert_ne. Qed.

Lemma load_miss k context w :
  turnState w context !! CacheKey k = None ->
  State.load k context w =
  (Ok (State.read w (storageKey k (activity context))),
   update_turnState context
     (<[CacheKey k := CachedState (State.read w (storageKey k (activity context)))
                                  (State.read w (storageKey k (activity context)))]>) w).
Proof. intros H. unfold State.load. by rewrite H. Qed.

Lemma sendAll_state context texts : forall w,
  memoryStorage (sendAll context texts w).2 = memoryStorage w
  /\ turnStates (sendAll context texts w).2 = turnStates w.
Proof.
  induction texts as [|t ts IH]; intros w; [done|].
  simpl. unfold mbind, M_bind, sendActivity.
  destruct (connector w _); [done|].
  match goal with |- context [sendAll context ts ?w0] =>
    destruct (IH w0) as [H1 H2] end.
  split; [exact H1 | exact H2].
Qed.

Lemma turnState_sendAll context texts w c' :
  turnState (sendAll context texts w).2 c' = turnState w c'.
Proof. unfold turnState. by rewrite (proj2 (sendAll_state context texts w)). Qed.

Lemma set_hit k context bag w loaded current :
  turnState w context !! CacheKey k = Some (CachedState loaded current) ->
  State.set k context bag w =
  (Ok tt, update_turnState context (<[CacheKey k := CachedState loaded bag]>) w).
Proof. intros H. unfold State.set. by rewrite H. Qed.

(** What a handler leaves behind when it started on a context that had
    loaded nothing yet: the Store as it was, and the two bags, as the
    dialog logic left them, cached in the turn-state bag. *)
Lemma runHandler_fresh h context w :
  turnState w context !! CacheKey conversationState = None ->
  turnState w context !! CacheKey userState = None ->
  let conv := State.read w (storageKey conversationState (activity context)) in
  let user := State.read w (storageKey userState (activity context)) in
  let r := h (activity context) conv user in
  exists o w1,
    runHandler h context w = (o, w1)
    /\ memoryStorage w1 = memoryStorage w
    /\ turnState w1 context !! CacheKey conversationState
       = Some (CachedState conv (conversation' r))
    /\ turnState w1 context !! CacheKey userState = Some (CachedState user (user' r))
    /\ (forall c', ctx_id c' <> ctx_id context -> turnState w1 c' = turnState w c')
    /\ (forall v, o = Ok v -> completion r = Ok v).
Proof.
  intros Hc Hu conv user r.
  unfold runHandler, mbind, M_bind.
  rewrite (load_miss _ _ _ Hc). fold conv.
  rewrite load_miss by (rewrite turnState_update; by rewrite lookup_insert_ne).
  change (State.read (update_turnState context _ w) ?k) with (State.read w k).
  fold user. fold r.
  erewrite set_hit
    by (rewrite !turnState_update; rewrite lookup_insert_ne by done;
        apply lookup_insert_eq).
  erewrite set_hit
    by (rewrite !turnState_update; rewrite lookup_insert_ne by done;
        apply lookup_insert_eq).
  match goal with |- context [sendAll context (replies r) ?w0] => set (w3 := w0) end.
  assert (memoryStorage w3 = memoryStorage w) as Hm3 by reflexivity.
  assert (turnState w3 context !! CacheKey conversationState
          = Some (CachedState conv (conversation' r))) as Hc3.
  { subst w3. rewrite !turnState_update. rewrite lookup_insert_ne by done.
    apply lookup_insert_eq. }
  assert (turnState w3 context !! CacheKey userState
          = Some (CachedState user (user' r))) as Hu3.
  { subst w3. rewrite !turnState_update. apply lookup_insert_eq. }
  assert (forall c', ctx_id c' <> ctx_id context -> turnState w3 c' = turnState w c')
    as Ho3.
  { intros c' Hne. subst w3. by rewrite !turnState_update_ne. }
  clearbody w3.
  pose proof (sendAll_state context (replies r) w3) as [Hs Ht].
  pose proof (fun c' => turnState_sendAll context (replies r) w3 c') as Hts.
  destruct (sendAll context (replies r) w3) as [[[]|e] w4]; simpl in Hs, Ht, Hts.
  - destruct (completion r) as [v|e] eqn:Hcomp;
      eexists _, w4; (split; [reflexivity|]);
      rewrite Hs, !Hts; repeat split; auto; try congruence;
      intros c' Hne; rewrite Hts; auto.
  - eexists _, w4. split; [reflexivity|].
    rewrite Hs, !Hts; repeat split; auto; try congruence.
    intros c' Hne; rewrite Hts; auto.
Qed.

Lemma saveChanges_read k context w loaded current :
  turnState w context !! CacheKey k = Some (CachedState loaded current) ->
  loaded = State.read w (storageKey k (activity context)) ->
  (State.saveChanges k context w).1 = Ok tt
  /\ State.read (State.saveChanges k context w).2 (storageKey k (activity context))
     = current.
Proof.
  intros Hk Hl. unfold State.saveChanges. rewrite Hk.
  case_decide as Heq; simpl; (split; [reflexivity|]).
  - congruence.
  - unfold State.read. simpl. by rewrite lookup_insert_eq.
Qed.

Lemma saveChanges_ok k context w : (State.saveChanges k context w).1 = Ok tt.
Proof.
  unfold State.saveChanges.
  destruct (turnState w context !! CacheKey k) as [[|loaded current]|]; try done.
  by case_decide.
Qed.

Lemma read_elsewhere {A} (m : M A) ks w s :
  touchesOnly ks m -> s ∉ ks -> State.read (m w).2 s = State.read w s.
Proof. intros Hm Hs. unfold State.read. by rewrite (Hm w s Hs). Qed.

(** C2: in a successful turn on a message activity the bag the handler
    left for the conversation is in the Store once the turn has ended;
    it stays there through any later turns of other conversations,
    failed or not, and the next turn of the same conversation loads
    exactly that bag.  Until the flush the Store is as the turn found
    it: after the handler and before the save point only the turn
    itself sees the new bag, every other turn of the conversation reads
    what it read before. *)
Theorem flush_is_the_save_point
    (context : TurnContext) (w w' : World) (v : option string)
    (later : list TurnContext) (following : TurnContext) :
  act_type (activity context) = MessageActivity ->
  turnState w context !! CacheKey conversationState = None ->
  turnState w context !! CacheKey userState = None ->
  run onMessage onInvoke bot context w = (Ok v, w') ->
  Forall (fun c => storageKey conversationState (activity c)
                   <> storageKey conversationState (activity context)) later ->
  storageKey conversationState (activity following)
    = storageKey conversationState (activity context) ->
  turnState (afterTurns onMessage onInvoke w' later) following !! CacheKey conversationState = None ->
  let scope := storageKey conversationState (activity context) in
  let r := onMessage (activity context) (State.read w scope)
             (State.read w (storageKey userState (activity context))) in
  let mid := (route onMessage onInvoke context w).2 in
  State.read w' scope = conversation' r
  /\ (State.load conversationState following (afterTurns onMessage onInvoke w' later)).1
     = Ok (conversation' r)
  /\ memoryStorage mid = memoryStorage w
  /\ State.current conversationState context mid = conversation' r
  /\ forall other,
       ctx_id other <> ctx_id context ->
       State.current conversationState other mid
       = State.current conversationState other w.
Proof.
  intros Hty Hc Hu Hrun Hlater Hsame Hfresh scope r mid.
  destruct (runHandler_fresh onMessage context w Hc Hu)
    as (o & w1 & Hh & Hm1 & Hc1 & Hu1 & Ho1 & Hcomp).
  assert (route onMessage onInvoke context w = (o, w1)) as Hroute.
  { unfold route. by rewrite Hty. }
  assert (State.read w' scope = conversation' r) as Hread.
  { revert Hrun. unfold run, mbind, M_bind. rewrite Hroute.
    destruct o as [v0|e]; [|discriminate]. simpl.
    destruct (saveChanges_read conversationState context w1 _ _ Hc1) as [Hok Hrd].
    { unfold State.read. by rewrite Hm1. }
    destruct (State.saveChanges conversationState context w1) as [[[]|e] w2];
      [|discriminate Hok]. simpl in Hrd.
    pose proof (saveChanges_ok userState context w2) as Hok2.
    assert (touchesOnly [storageKey userState (activity context)]
              (State.saveChanges userState context)) as Htouch
      by (apply touchesOnly_saveChanges; set_solver).
    assert (scope ∉ [storageKey userState (activity context)]) as Hout
      by (subst scope; rewrite list_elem_of_singleton; discriminate).
    pose proof (read_elsewhere _ _ w2 scope Htouch Hout) as Hrd2.
    destruct (State.saveChanges userState context w2) as [[[]|e] w3];
      [|discriminate Hok2]. simpl in Hrd2.
    intros [= <- <-]. by rewrite Hrd2. }
  split; [exact Hread|]. split; [|split; [|split]].
  - rewrite (load_miss _ _ _ Hfresh). cbn [fst]. rewrite Hsame.
    unfold State.read. rewrite afterTurns_elsewhere; [f_equal; exact Hread|].
    eapply Forall_impl; [exact Hlater|]. intros c Hne. split; [exact Hne|].
    subst scope. by simpl.
  - subst mid. by rewrite Hroute.
  - subst mid. rewrite Hroute. simpl. unfold State.current. by rewrite Hc1.
  - intros other Hne. subst mid. rewrite Hroute. simpl.
    unfold State.current, State.read. by rewrite (Ho1 _ Hne), Hm1.
Qed.

End Frame.

Lemma flush_is_the_save_point_witness :
  run SampleHttp.counting SampleHttp.noInvoke bot Sample.context Sample.populated
    = (Ok None, SampleTurns.afterFirst)
  /\ State.read SampleTurns.afterFirst (ConversationScope None "c1") = {["count" := JNum 2]}
  /\ (State.load conversationState SampleTurns.following
        (afterTurns SampleHttp.counting SampleHttp.noInvoke SampleTurns.afterFirst
           [SampleTurns.elsewhere])).1
     = Ok {["count" := JNum 2]}.
Proof.
  assert (run SampleHttp.counting SampleHttp.noInvoke bot Sample.context Sample.populated
          = (Ok None, SampleTurns.afterFirst)) as Hrun by (vm_compute; reflexivity).
  assert (Forall (fun c => storageKey conversationState (activity c)
                           <> storageKey conversationState (activity Sample.context))
            [SampleTurns.elsewhere]) as Hlater
    by (repeat constructor; discriminate).
  destruct (flush_is_the_save_point SampleHttp.counting SampleHttp.noInvoke
              Sample.context Sample.populated SampleTurns.afterFirst None
              [SampleTurns.elsewhere] SampleTurns.following
              eq_refl eq_refl eq_refl Hrun Hlater eq_refl ltac:(vm_compute; reflexivity))
    as (Hread & Hload & _).
  split; [exact Hrun|]. split.
  - etransitivity; [exact Hread|]. vm_compute. reflexivity.
  - etransitivity; [exact Hload|]. vm_compute. reflexivity.
Defined.

(** ** Turn-state injection and the Turn Context *)

Section Injection.

Variable onMessage : DialogLogic.
Variable onInvoke : string -> option DialogLogic.

Implicit Types (context : TurnContext) (w : World).

Lemma keepsNamed_ret {A} (a : A) : keepsNamed (mret a).
Proof. by intros w. Qed.

Lemma keepsNamed_throw {A} e : keepsNamed (@throw A e).
Proof. by intros w. Qed.

Lemma keepsNamed_bind {A B} (m : M A) (f : A -> M B) :
  keepsNamed m -> (forall a, keepsNamed (f a)) -> keepsNamed (m ≫= f).
Proof.
  intros Hm Hf w. unfold mbind, M_bind.
  specialize (Hm w). destruct (m w) as [[a|e] w1]; simpl in *; [|exact Hm].
  destruct Hm as [Hn Ht]. destruct (Hf a w1) as [Hn' Ht'].
  split; [congruence|]. intros c s. by rewrite Ht', Ht.
Qed.

Lemma keepsNamed_try_catch {A} (m : M A) (h : Js.Error -> M A) :
  keepsNamed m -> (forall e, keepsNamed (h e)) -> keepsNamed (try_catch m h).
Proof.
  intros Hm Hh w. unfold try_catch.
  specialize (Hm w). destruct (m w) as [[a|e] w1]; simpl in *; [exact Hm|].
  destruct Hm as [Hn Ht]. destruct (Hh e w1) as [Hn' Ht'].
  split; [congruence|]. intros c s. by rewrite Ht', Ht.
Qed.

Lemma keepsNamed_console_error args : keepsNamed (console_error args).
Proof. by intros w. Qed.

Lemma keepsNamed_sendActivity context text : keepsNamed (sendActivity context text).
Proof. intros w. unfold sendActivity. by destruct (connector w _). Qed.

Lemma keepsNamed_sendAll context texts : keepsNamed (sendAll context texts).
Proof.
  induction texts as [|t ts IH]; simpl.
  - apply keepsNamed_ret.
  - apply keepsNamed_bind; [apply keepsNamed_sendActivity | intros _; exact IH].
Qed.

Lemma named_update context (f : TurnState -> TurnState) w c s :
  (forall t, f t !! StrKey s = t !! StrKey s) ->
  turnState (update_turnState context f w) c !! StrKey s = turnState w c !! StrKey s.
Proof.
  intros Hf. unfold turnState at 1. simpl.
  destruct (decide (ctx_id context = ctx_id c)) as [Heq|Hne].
  - rewrite Heq, lookup_insert_eq. simpl. rewrite Hf. unfold turnState. by rewrite Heq.
  - by rewrite lookup_insert_ne.
Qed.

Lemma keepsNamed_load k context : keepsNamed (State.load k context).
Proof.
  intros w. unfold State.load.
  destruct (turnState w context !! CacheKey k) as [[|l c0]|]; simpl;
    (split; [reflexivity|]); intros c s; try reflexivity;
    apply named_update; intros t; by rewrite lookup_insert_ne.
Qed.

Lemma keepsNamed_set k context bag : keepsNamed (State.set k context bag).
Proof.
  intros w. unfold State.set. simpl. split; [reflexivity|]. intros c s.
  apply named_update. intros t. by rewrite lookup_insert_ne.
Qed.

Lemma keepsNamed_saveChanges k context : keepsNamed (State.saveChanges k context).
Proof.
  intros w. unfold State.saveChanges.
  destruct (turnState w context !! CacheKey k) as [[|loaded current]|]; try done.
  case_decide; [done|]. simpl. split; [reflexivity|]. intros c s.
  rewrite named_update by (intros t; by rewrite lookup_insert_ne). reflexivity.
Qed.

Lemma keepsNamed_delete k context : keepsNamed (State.delete k context).
Proof.
  intros w. unfold State.delete. simpl. split; [reflexivity|]. intros c s.
  change (turnState (with_storage ?g ?w0) c) with (turnState w0 c).
  apply named_update. intros t. by rewrite lookup_delete_ne.
Qed.

Lemma keepsNamed_onTurnError context error : keepsNamed (onTurnError context error).
Proof.
  unfold onTurnError.
  repeat (apply keepsNamed_bind; [|intros _]);
    auto using keepsNamed_console_error, keepsNamed_delete, keepsNamed_sendActivity.
Qed.

Lemma keepsNamed_runHandler h context : keepsNamed (runHandler h context).
Proof.
  unfold runHandler.
  apply keepsNamed_bind; [apply keepsNamed_load | intros conv].
  apply keepsNamed_bind; [apply keepsNamed_load | intros user].
  apply keepsNamed_bind; [apply keepsNamed_set | intros _].
  apply keepsNamed_bind; [apply keepsNamed_set | intros _].
  apply keepsNamed_bind; [apply keepsNamed_sendAll | intros _].
  destruct (completion _); [apply keepsNamed_ret | apply keepsNamed_throw].
Qed.

Lemma keepsNamed_turn context :
  keepsNamed (Adapter.runTurn (run onMessage onInvoke bot) context).
Proof.
  unfold Adapter.runTurn. apply keepsNamed_try_catch.
  - unfold run.
    apply keepsNamed_bind; [|intros v].
    { unfold route. destruct (act_type (activity context)).
      - apply keepsNamed_runHandler.
      - destruct (act_name (activity context) ≫= onInvoke);
          [apply keepsNamed_runHandler | apply keepsNamed_ret].
      - apply keepsNamed_ret. }
    apply keepsNamed_bind; [apply keepsNamed_saveChanges | intros _].
    apply keepsNamed_bind; [apply keepsNamed_saveChanges | intros _].
    apply keepsNamed_ret.
  - intros e. apply keepsNamed_bind; [|intros _; apply keepsNamed_ret].
    apply keepsNamed_onTurnError.
Qed.

(** The world in which [adapter.process] dispatches: a new context whose
    bag is empty. *)
Lemma adapter_process_dispatch (x : Http) (a : Activity) w
    (l : TurnContext -> M (option string)) :
  req_body (req x) ≫= Adapter.toActivity = Some a ->
  exists w0,
    Adapter.createContext a w = (Ok (mkContext (nextContext w) a), w0)
    /\ nextContext w0 = S (nextContext w)
    /\ turnState w0 (mkContext (nextContext w) a) = ∅
    /\ adapter_process x l w
       = (Adapter.runTurn l (mkContext (nextContext w) a)
            ≫= (fun v => mret (answered x v))) w0.
Proof.
  intros Hb. eexists. split; [reflexivity|]. split; [reflexivity|]. split.
  - unfold turnState. simpl. by rewrite lookup_insert_eq.
  - unfold adapter_process. by rewrite Hb.
Qed.

(** C5 (code bug): on the messages route the injection runs first, never
    fails and is idempotent, and it puts the bot handle under ['bot'] in
    the bag [req.turnState] of the request.  But the Turn Context the
    adapter builds for the dispatch is made from the activity alone:
    whatever logic is dispatched runs on a context whose turn-state bag is
    empty, and once the route has handled the request, a context having
    been created for it, that context's bag still has nothing under
    ['bot'].  The handle is not discoverable from the Turn Context. *)
Theorem injected_bot_never_reaches_context (x : Http) (w : World) (a : Activity) :
  req_body (req x) ≫= Adapter.toActivity = Some a ->
  addBotToTurnState x w = (Ok (withBot x, next), w)
  /\ addBotToTurnState (withBot x) w = (Ok (withBot x, next), w)
  /\ (exists bag, req_turnState (req (withBot x)) = Some bag
        /\ bag !! StrKey "bot" = Some (BotValue bot))
  /\ (forall l : TurnContext -> M (option string),
        exists w0,
          turnState w0 (mkContext (nextContext w) a) = ∅
          /\ adapter_process (withBot x) l (logged (withBot x) w)
             = (Adapter.runTurn l (mkContext (nextContext w) a)
                  ≫= (fun v => mret (answered (withBot x) v))) w0)
  /\ nextContext (runChain [addBotToTurnState; messages onMessage onInvoke] x w).2
     = S (nextContext w)
  /\ turnState (runChain [addBotToTurnState; messages onMessage onInvoke] x w).2
       (mkContext (nextContext w) a) !! StrKey "bot" = None.
Proof.
  intros Hb.
  assert (req_body (req (withBot x)) ≫= Adapter.toActivity = Some a) as Hb' by exact Hb.
  split; [apply addBotToTurnState_unfold|].
  split; [by rewrite addBotToTurnState_unfold, withBot_idempotent|].
  split; [eexists; split; [reflexivity | apply lookup_insert_eq]|].
  split.
  { intros l.
    destruct (adapter_process_dispatch (withBot x) a (logged (withBot x) w) l Hb')
      as (w0 & _ & _ & Ht & Hp).
    exists w0. split; [exact Ht | exact Hp]. }
  rewrite runChain_cons, addBotToTurnState_unfold, runChain_cons, messages_unfold.
  destruct (adapter_process_dispatch (withBot x) a (logged (withBot x) w)
              (fun context => run onMessage onInvoke bot context) Hb')
    as (w0 & _ & Hn & Ht & ->).
  change (nextContext (logged (withBot x) w)) with (nextContext w) in *.
  unfold mbind, M_bind.
  destruct (keepsNamed_turn (mkContext (nextContext w) a) w0) as [Hn1 Ht1].
  specialize (Ht1 (mkContext (nextContext w) a) "bot").
  rewrite Ht, lookup_empty in Ht1. rewrite Hn in Hn1.
  destruct (Adapter.runTurn (run onMessage onInvoke bot) (mkContext (nextContext w) a) w0)
    as [[v|e] w1]; simpl in *; by split.
Qed.

End Injection.

Lemma injected_bot_never_reaches_context_witness :
  req_body (req SampleHttp.parsedHello) ≫= Adapter.toActivity = Some Sample.hello
  /\ nextContext (runChain [addBotToTurnState;
                            messages SampleHttp.counting SampleHttp.noInvoke]
                    SampleHttp.parsedHello Sample.world).2 = 2
  /\ turnState (runChain [addBotToTurnState;
                          messages SampleHttp.counting SampleHttp.noInvoke]
                  SampleHttp.parsedHello Sample.world).2
       (mkContext 1 Sample.hello) !! StrKey "bot" = None.
Proof.
  split; [reflexivity|].
  destruct (injected_bot_never_reaches_context SampleHttp.counting SampleHttp.noInvoke
              SampleHttp.parsedHello Sample.world Sample.hello eq_refl)
    as (_ & _ & _ & _ & Hn & Ht).
  split; [exact Hn | exact Ht].
Defined.

(** ** The scenarios of the specification, run on the model *)

Example htmlContent_byteLength : numberToString (byteLength htmlContent) = "290".
Proof. reflexivity. Qed.

(** Two "hello" messages in conversation [c1] with the counting dialog:
    the count is 1 after the first turn and 2 after the second. *)
Example scenario_count :
  State.read (afterTurns SampleHttp.counting SampleHttp.noInvoke Sample.world [Sample.context])
    (ConversationScope None "c1") = {["count" := JNum 1]}
  /\ State.read (afterTurns SampleHttp.counting SampleHttp.noInvoke Sample.world
                   [Sample.context; SampleTurns.following])
       (ConversationScope None "c1") = {["count" := JNum 2]}.
Proof. split; vm_compute; reflexivity. Qed.

(** An invoke activity of a name nobody handles changes no state and sends
    nothing. *)
Example scenario_unknown_invoke :
  let context :=
    mkContext 0 (mkActivity InvokeActivity (Some "unknown/op") None None "c1" (Some "u1") None) in
  let w := (Adapter.runTurn (run SampleHttp.counting SampleHttp.noInvoke bot) context
              Sample.populated).2 in
  memoryStorage w = memoryStorage Sample.populated /\ sent w = [].
Proof. split; reflexivity. Qed.

(** A failing dialog behind the whole gateway: the half-written bag is not
    stored, the conversation's entry is gone, and the user gets the
    apology. *)
Example scenario_crash :
  let w := (handleRequest (server SampleHttp.crashing SampleHttp.noInvoke SampleHttp.keep)
              SampleHttp.postHello Sample.populated).2 in
  memoryStorage w !! ConversationScope None "c1" = None
  /\ out_text <$> sent w = ["Lo siento, ocurrió un error. boom"].
Proof. split; vm_compute; reflexivity. Qed.

(** * Further properties of index.js *)

(** ** Start-up *)

Section MoreStartup.

Import Process.

Implicit Types (env : gmap string string).

Lemma truthy_named (v : option string) :
  Js.truthy v = true <-> exists name, name <> EmptyString /\ v = Some name.
Proof.
  unfold Js.truthy. destruct v as [s|].
  - destruct (String.eqb_spec s EmptyString) as [->|Hne]; simpl; split.
    + discriminate.
    + intros (name & Hne & [= <-]). contradiction.
    + eauto.
    + reflexivity.
  - split; [discriminate | intros (? & _ & [=])].
Qed.

Lemma truthy_blank (v : option string) : Js.truthy v = false <-> blank v.
Proof.
  unfold Js.truthy, blank. destruct v as [s|].
  - destruct (String.eqb_spec s EmptyString) as [->|Hne]; simpl; split; auto.
    + discriminate.
    + intros [[=] | [= ->]]. contradiction.
  - split; auto.
Qed.

Lemma or_blank (a b : option string) : blank a -> Js.or a b = b.
Proof. intros H. unfold Js.or. by rewrite (proj2 (truthy_blank a) H). Qed.

Lemma or_named (a b : option string) : Js.truthy a = true -> Js.or a b = a.
Proof. intros H. unfold Js.or. by rewrite H. Qed.

Lemma start_trace_configured env :
  Js.truthy (connectionName env) = true ->
  trace (start env) =
  [Listen (port env); InstallRejectionHandler;
   Output (ConsoleLog ["Bot iniciado. Ejecutándose en el puerto " +:+ showPort (port env)]);
   Output (ConsoleLog ["Nombre de conexión OAuth configurado: "
                       +:+ Js.tpl (connectionName env)]);
   Output (ConsoleLog ["Para verificar la configuración de autenticación, revisa el archivo .env"])].
Proof.
  intros H. unfold start, main, mbind, Boot_bind. rewrite H. reflexivity.
Qed.

(** X1: the name check decides the early exit: the process prints the
    configuration error and exits with code 1 as its only acts exactly
    when neither variable names the connection with a non-empty string;
    with such a name the configuration error is never printed. *)
Theorem name_check_decides_the_exit env :
  (start env = mkState [missingNameError; Exit 1] (Some 1) None false
   <-> ~ exists name, name <> EmptyString /\ connectionName env = Some name)
  /\ ((exists name, name <> EmptyString /\ connectionName env = Some name) ->
        missingNameError ∉ trace (start env)).
Proof.
  destruct (Js.truthy (connectionName env)) eqn:E.
  - pose proof (proj1 (truthy_named _) E) as Hname.
    pose proof (start_trace_configured _ E) as Htr.
    split; [split|].
    + intros Hs. rewrite Hs in Htr. discriminate Htr.
    + intros Hno. by destruct Hno.
    + intros _. rewrite Htr. intros Hin.
      repeat (apply elem_of_cons in Hin as [Hin|Hin]; [discriminate Hin|]).
      by apply elem_of_nil in Hin.
  - split; [split|].
    + intros _ Hname. apply truthy_named in Hname. congruence.
    + intros _. by apply start_unconfigured.
    + intros Hname. apply truthy_named in Hname. congruence.
Qed.

(** X2: a connection name that is set but empty counts as missing: when
    both variables are unset or empty the process prints the
    configuration error and exits with code 1 without binding a port. *)
Theorem empty_connection_name_is_fatal env :
  blank (env !! "connectionName") ->
  blank (env !! "OAUTH_CONNECTION_NAME") ->
  start env = mkState [missingNameError; Exit 1] (Some 1) None false.
Proof.
  intros H1 H2. apply start_unconfigured.
  unfold connectionName. rewrite (or_blank _ _ H1). by apply truthy_blank.
Qed.

(** X3: when [connectionName] is unset or empty and
    [OAUTH_CONNECTION_NAME] holds a non-empty name, that name is the one
    in use: it is the name the start-up check accepts, the process does
    not stop with the configuration error, and the name is what the
    adapter's configuration is given as [OAuthConnectionName]. *)
Theorem fallback_connection_name env name :
  blank (env !! "connectionName") ->
  env !! "OAUTH_CONNECTION_NAME" = Some name ->
  name <> EmptyString ->
  connectionName env = Some name
  /\ OAuthConnectionName (botFrameworkAuthentication env) = Some name
  /\ start env <> mkState [missingNameError; Exit 1] (Some 1) None false
  /\ missingNameError ∉ trace (start env).
Proof.
  intros H1 H2 Hne.
  assert (connectionName env = Some name) as Hc
    by (unfold connectionName; by rewrite (or_blank _ _ H1)).
  assert (Js.truthy (connectionName env) = true) as Ht
    by (apply truthy_named; eauto).
  pose proof (start_trace_configured _ Ht) as Htr.
  split; [exact Hc|]. split; [exact Hc|]. split.
  - intros Hs. rewrite Hs in Htr. discriminate Htr.
  - rewrite Htr. intros Hin.
    repeat (apply elem_of_cons in Hin as [Hin|Hin]; [discriminate Hin|]).
    by apply elem_of_nil in Hin.
Qed.

(** X4: the app type given to the adapter is never missing or empty: it
    is the first non-empty one of [MicrosoftAppType] and
    [MICROSOFT_APP_TYPE], and 'MultiTenant' when both are unset or empty.
    Once the process is past its start-up check the connection name given
    to the adapter is non-empty as well. *)
Theorem authentication_options_complete env :
  (exists t, t <> EmptyString /\ MicrosoftAppType (botFrameworkAuthentication env) = Some t)
  /\ (blank (env !! "MicrosoftAppType") -> blank (env !! "MICROSOFT_APP_TYPE") ->
        MicrosoftAppType (botFrameworkAuthentication env) = Some "MultiTenant")
  /\ (forall t, t <> EmptyString -> env !! "MicrosoftAppType" = Some t ->
        MicrosoftAppType (botFrameworkAuthentication env) = Some t)
  /\ (forall t, t <> EmptyString -> blank (env !! "MicrosoftAppType") ->
        env !! "MICROSOFT_APP_TYPE" = Some t ->
        MicrosoftAppType (botFrameworkAuthentication env) = Some t)
  /\ (exited (start env) = None ->
        exists name, name <> EmptyString
                     /\ OAuthConnectionName (botFrameworkAuthentication env) = Some name).
Proof.
  unfold botFrameworkAuthentication. simpl.
  split; [|split; [|split; [|split]]].
  - apply truthy_named.
    destruct (Js.truthy (Js.or (env !! "MicrosoftAppType") (env !! "MICROSOFT_APP_TYPE")))
      eqn:E.
    + by rewrite (or_named _ _ E).
    + by rewrite (or_blank _ _ (proj1 (truthy_blank _) E)).
  - intros H1 H2. rewrite (or_blank _ _ H1). by rewrite (or_blank _ _ H2).
  - intros t Hne Ht.
    assert (Js.truthy (env !! "MicrosoftAppType") = true) as E
      by (apply truthy_named; eauto).
    rewrite (or_named _ (env !! "MICROSOFT_APP_TYPE") E).
    by rewrite (or_named _ _ E).
  - intros t Hne H1 Ht. rewrite (or_blank _ _ H1).
    assert (Js.truthy (env !! "MICROSOFT_APP_TYPE") = true) as E
      by (apply truthy_named; eauto).
    by rewrite (or_named _ _ E).
  - intros H. apply truthy_named. by apply start_exited_or_configured.
Qed.

(** X5: the listen port is [PORT] when that is non-empty, else [port]
    when that is non-empty, else the number 3978; an empty [PORT] does not
    hide a usable [port]. *)
Theorem port_selection env :
  (forall p, p <> EmptyString -> env !! "PORT" = Some p -> port env = PortName p)
  /\ (forall p, p <> EmptyString -> blank (env !! "PORT") -> env !! "port" = Some p ->
        port env = PortName p)
  /\ (blank (env !! "PORT") -> blank (env !! "port") -> port env = PortNumber 3978).
Proof.
  unfold port. split; [|split].
  - intros p Hne Hp.
    assert (Js.truthy (env !! "PORT") = true) as E by (apply truthy_named; eauto).
    rewrite (or_named _ _ E), Hp. by rewrite <- Hp, E.
  - intros p Hne H1 Hp. rewrite (or_blank _ _ H1), Hp.
    assert (Js.truthy (Some p) = true) as E by (apply truthy_named; eauto).
    by rewrite E.
  - intros H1 H2. rewrite (or_blank _ _ H1).
    destruct H2 as [-> | ->]; reflexivity.
Qed.

End MoreStartup.

Lemma empty_connection_name_is_fatal_witness :
  blank (SampleEnv.emptyName !! "connectionName")
  /\ blank (SampleEnv.emptyName !! "OAUTH_CONNECTION_NAME")
  /\ Process.listening (Process.start SampleEnv.emptyName) = None.
Proof.
  assert (blank (SampleEnv.emptyName !! "connectionName")) as H1 by (right; reflexivity).
  assert (blank (SampleEnv.emptyName !! "OAUTH_CONNECTION_NAME")) as H2
    by (left; reflexivity).
  split; [exact H1|]. split; [exact H2|].
  by rewrite (empty_connection_name_is_fatal SampleEnv.emptyName H1 H2).
Defined.

Lemma fallback_connection_name_witness :
  blank (SampleEnv.upperCase !! "connectionName")
  /\ SampleEnv.upperCase !! "OAUTH_CONNECTION_NAME" = Some "graph"
  /\ OAuthConnectionName (botFrameworkAuthentication SampleEnv.upperCase) = Some "graph".
Proof.
  assert (blank (SampleEnv.upperCase !! "connectionName")) as H1 by (right; reflexivity).
  assert ("graph" <> EmptyString) as Hne by discriminate.
  split; [exact H1|]. split; [reflexivity|].
  exact (proj1 (proj2 (fallback_connection_name SampleEnv.upperCase "graph" H1 eq_refl Hne))).
Defined.

(** ** The error boundary, when the notification fails *)

(** X6: the boundary resets before it notifies: when the connector rejects
    the apology, [onTurnError] raises the connector's error, and by then
    the error and its stack have been logged and the Conversation State of
    the turn is already deleted, in the Store and in the turn's cache. *)
Theorem boundary_resets_before_notifying
    (context : TurnContext) (error : Js.Error) (w : World) (e2 : Js.Error) :
  connector w (apology context error) = Some e2 ->
  exists w',
    onTurnError context error w = (Throw e2, w')
    /\ memoryStorage w' !! storageKey conversationState (activity context) = None
    /\ State.current conversationState context w' = ∅
    /\ console w' =
         console w ++
         [ConsoleError [String "010" " [onTurnError] Error no manejado: "
                        +:+ Js.toString error];
          ConsoleError ["Stack: " +:+ Js.tpl (Js.stack error)]].
Proof.
  intros H. exists (recovered context error w).
  rewrite onTurnError_unfold, H. split; [reflexivity|].
  split; [rewrite recovered_storage; apply lookup_delete_eq|].
  split; [apply recovered_current_empty|].
  simpl. by rewrite <- app_assoc.
Qed.

Lemma boundary_resets_before_notifying_witness :
  connector SampleHttp.offline (apology Sample.context Sample.boom)
    = Some SampleHttp.unreachable
  /\ (onTurnError Sample.context Sample.boom SampleHttp.offline).1
     = Throw SampleHttp.unreachable.
Proof.
  split; [reflexivity|].
  destruct (boundary_resets_before_notifying Sample.context Sample.boom SampleHttp.offline
              SampleHttp.unreachable eq_refl) as (w' & H & _).
  by rewrite H.
Defined.

(** ** The handlers and the request life cycle *)

Section MoreRoutes.

Variable onMessage : DialogLogic.
Variable onInvoke : string -> option DialogLogic.
Variable sanitizePath : string -> string.

Implicit Types (x : Http) (w : World).

Abbreviation logic := (fun context => run onMessage onInvoke bot context).
Abbreviation theServer := (server onMessage onInvoke sanitizePath).

(** X7: [crossOrigin] never ends a request and changes nothing but the
    three CORS headers: it always hands over with [next()], and the
    request, the status, the body and every other header pass through as
    they were. *)
Theorem crossOrigin_only_sets_cors x w :
  exists x',
    crossOrigin x w = (Ok (x', next), w)
    /\ req x' = req x
    /\ statusCode (res x') = statusCode (res x)
    /\ content (res x') = content (res x)
    /\ finished (res x') = finished (res x)
    /\ forall k, k <> "Access-Control-Allow-Origin" ->
                 k <> "Access-Control-Allow-Headers" ->
                 k <> "Access-Control-Allow-Methods" ->
                 headers (res x') !! k = headers (res x) !! k.
Proof.
  eexists. split; [apply crossOrigin_unfold|]. simpl.
  repeat split.
  intros k H1 H2 H3. unfold corsHeaders. by rewrite !lookup_insert_ne.
Qed.

(** X8: the handler of the messages route resolves exactly when
    [adapter.process] returns, and then it hands on the request, the
    response and the world just as the adapter left them; when
    [adapter.process] raises it rejects.  Either way the handler writes
    no body of its own. *)
Theorem messages_resolves_iff_adapter_returns x w :
  exists x' n w',
    messages onMessage onInvoke x w = (Ok (x', n), w')
    /\ (n = next
        <-> exists x1 w1, adapter_process x logic (logged x w) = (Ok x1, w1))
    /\ (forall x1 w1,
          adapter_process x logic (logged x w) = (Ok x1, w1) -> x' = x1 /\ w' = w1)
    /\ (forall e w1,
          adapter_process x logic (logged x w) = (Throw e, w1) ->
          n = rejected sendOnNumber
          /\ req x' = req x
          /\ content (res x') = content (res x)
          /\ headers (res x') = headers (res x)).
Proof.
  rewrite messages_unfold.
  destruct (adapter_process x logic (logged x w)) as [[x'|e] w1] eqn:E;
    eexists _, _, _; (split; [reflexivity|]); split; [| split | | split].
  - split; eauto.
  - by intros ? ? [= <- <-].
  - intros ? ? [=].
  - split; [discriminate | intros (? & ? & [=])].
  - intros ? ? [=].
  - by intros ? ? [= <- <-].
Qed.

Lemma lookup_messages (r : Request) :
  req_method r = POST -> req_path r = "/api/messages" ->
  lookupRoute theServer r = Some (messagesRoute onMessage onInvoke).
Proof.
  intros Hm Hp. unfold lookupRoute, routeMatches. rewrite server_routes_eq, Hm, Hp.
  reflexivity.
Qed.

Lemma handle_messages (r : Request) w :
  req_method r = POST ->
  sanitizePath (req_path r) = "/api/messages" ->
  parses r = true ->
  handleRequest theServer r w =
  match messages onMessage onInvoke (prepared r) w with
  | (Ok q, w') => (Ok (finish q), w')
  | (Throw e, w') => (Throw e, w')
  end.
Proof.
  intros Hm Hp Hb. rewrite handleRequest_unfold.
  rewrite (lookup_messages (sanitized sanitizePath r)) by (simpl; assumption).
  rewrite runChain_cons, bodyParser_accepts by exact Hb.
  rewrite runChain_cons, crossOrigin_unfold.
  simpl route_handlers. rewrite runChain_cons, addBotToTurnState_unfold, runChain_cons.
  match goal with |- context [messages onMessage onInvoke ?x0 w] =>
    assert (x0 = prepared r) as ->
  end.
  { unfold withBot, prepared, parsed, sanitized. simpl. rewrite Hm, Hp.
    destruct (req_rawBody r); reflexivity. }
  destruct (messages_settles onMessage onInvoke (prepared r) w) as (x' & n & w' & -> & _).
  destruct n; [by rewrite runChain_nil | reflexivity | reflexivity].
Qed.

(** X9: on [POST /api/messages] the handler of the route runs last, after
    the path was sanitized, the body parsed, the CORS headers set and the
    bot handle put on the request: the server's answer to a request whose
    body parses is what that handler leaves for exactly that prepared
    request, its response when it resolved and the error response on it
    when it rejected. *)
Theorem messages_handler_sees_prepared_request (r : Request) w :
  req_method r = POST ->
  sanitizePath (req_path r) = "/api/messages" ->
  parses r = true ->
  exists x' n w',
    messages onMessage onInvoke (prepared r) w = (Ok (x', n), w')
    /\ handleRequest theServer r w = (Ok (finish (x', n)), w').
Proof.
  intros Hm Hp Hb. rewrite (handle_messages r w Hm Hp Hb).
  destruct (messages_settles onMessage onInvoke (prepared r) w) as (x' & n & w' & -> & _).
  eauto.
Qed.

(** X10: when [adapter.process] raises on such a request, the client gets
    status 500 with the server's error body for the TypeError of line
    128, never the text 'Error interno del servidor', and the response
    still carries the CORS headers set earlier in the chain. *)
Theorem failed_dispatch_answer (r : Request) w e w1 :
  req_method r = POST ->
  sanitizePath (req_path r) = "/api/messages" ->
  parses r = true ->
  adapter_process (prepared r) logic (logged (prepared r) w) = (Throw e, w1) ->
  exists response,
    handleRequest theServer r w
      = (Ok response, with_console (fun c => c ++ failureLines e) w1)
    /\ statusCode response = 500
    /\ content response = Some (Json "res.status(...).send is not a function")
    /\ headers response !! "Access-Control-Allow-Origin" = Some "*"
    /\ headers response !! "Access-Control-Allow-Methods"
       = Some "GET, POST, PUT, DELETE, OPTIONS"
    /\ headers response !! "Access-Control-Allow-Headers"
       = Some "X-Requested-With, Content-Type, Accept, Origin, Authorization".
Proof.
  intros Hm Hp Hb He. rewrite (handle_messages r w Hm Hp Hb).
  rewrite messages_unfold, He. eexists. split; [reflexivity|].
  split; [reflexivity|]. split; [reflexivity|]. apply (corsHeaders_permit ∅).
Qed.

(** X11: the activity log of the messages route cannot fail and changes
    nothing but the console.  It prints nothing for a request without a
    parsed body; otherwise one line with the type and the name ('N/A'
    when there is none), and a second one for a message, giving its text
    in full, or for an invoke, giving its name. *)
Theorem logActivity_only_prints x w :
  exists lines,
    logActivity x w = (Ok tt, with_console (fun c => c ++ lines) w)
    /\ (req_body (req x) = None -> lines = [])
    /\ (forall body, req_body (req x) = Some body ->
          head lines
            = Some (ConsoleLog ["Actividad recibida - Tipo: " +:+ Js.tpl (body_type body)
                                +:+ ", Nombre: " +:+ Js.or_lit (body_name body) "N/A"])
          /\ (body_type body = Some "message" ->
                tail lines
                = [ConsoleLog ["Mensaje: " +:+ dquote +:+ Js.tpl (body_text body)
                               +:+ dquote]])
          /\ (body_type body = Some "invoke" ->
                tail lines
                = [ConsoleLog ["Actividad de invoke: " +:+ dquote
                               +:+ Js.tpl (body_name body) +:+ dquote]])
          /\ (body_type body <> Some "message" -> body_type body <> Some "invoke" ->
                tail lines = [])).
Proof.
  exists (activityLines (req_body (req x))).
  split; [apply logActivity_unfold|]. split.
  - by intros ->.
  - intros body ->. unfold activityLines. split; [reflexivity|]. simpl.
    split; [|split].
    + intros H. by rewrite H.
    + intros H. by rewrite H.
    + intros H1 H2. by repeat case_decide.
Qed.

Lemma lookupRoute_matches (r : Request) (rt : Route) :
  lookupRoute theServer r = Some rt -> route_method rt = req_method r.
Proof.
  unfold lookupRoute. intros H. apply find_some in H as [_ H].
  unfold routeMatches in H. apply andb_prop in H as [H _].
  by apply bool_decide_eq_true in H.
Qed.

Lemma serveStatic_world x w : exists q, serveStatic x w = (Ok q, w).
Proof.
  unfold serveStatic. destruct (publicDir w !! req_path (req x)) as [file|]; by eexists.
Qed.


(** X13: only [POST] requests can change the bot's state: for a request
    of any other method the Store, the turn-state bags and the list of
    activities sent are after the request what they were before. *)
Theorem only_posts_touch_state (r : Request) w :
  req_method r <> POST ->
  memoryStorage (handleRequest theServer r w).2 = memoryStorage w
  /\ turnStates (handleRequest theServer r w).2 = turnStates w
  /\ sent (handleRequest theServer r w).2 = sent w.
Proof.
  intros Hm. rewrite handleRequest_unfold.
  destruct (lookupRoute theServer (sanitized sanitizePath r)) as [rt|] eqn:Hrt;
    [|by simpl].
  pose proof (lookupRoute_matches _ _ Hrt) as Hmeth. simpl in Hmeth.
  destruct (lookupRoute_cases _ _ _ _ _ Hrt) as [-> | [-> | ->]];
    simpl in Hmeth; try congruence.
  - rewrite runChain_cons, bodyParser_accepts by (unfold parses; simpl; by rewrite <- Hmeth).
    rewrite runChain_cons, crossOrigin_unfold. simpl route_handlers.
    rewrite runChain_cons.
    match goal with |- context [serveStatic ?x0 w] =>
      destruct (serveStatic_world x0 w) as ([x' n] & ->) end.
    destruct n; [rewrite runChain_nil| |]; by simpl.
  - rewrite runChain_cons, bodyParser_accepts by (unfold parses; simpl; by rewrite <- Hmeth).
    rewrite runChain_cons, crossOrigin_unfold. simpl route_handlers.
    rewrite runChain_cons.
    unfold oauthcallback, mbind, M_bind, console_log, modify. by simpl.
Qed.

(** X14: only [GET] and [POST] routes are mounted: a request of any other
    method, [OPTIONS], [PUT] and [DELETE] included, matches no route, so
    none of the handlers of index.js runs for it: the world is left as it
    was and the response has none of the three CORS headers. *)
Theorem other_verbs_are_not_routed (r : Request) w :
  req_method r <> GET ->
  req_method r <> POST ->
  lookupRoute theServer (sanitized sanitizePath r) = None
  /\ exists response,
       handleRequest theServer r w = (Ok response, w)
       /\ headers response !! "Access-Control-Allow-Origin" = None
       /\ headers response !! "Access-Control-Allow-Methods" = None
       /\ headers response !! "Access-Control-Allow-Headers" = None.
Proof.
  intros Hg Hp.
  assert (lookupRoute theServer (sanitized sanitizePath r) = None) as Hnone.
  { destruct (lookupRoute theServer (sanitized sanitizePath r)) as [rt|] eqn:Hrt;
      [|reflexivity].
    pose proof (lookupRoute_matches _ _ Hrt) as Hmeth. simpl in Hmeth.
    destruct (lookupRoute_cases _ _ _ _ _ Hrt) as [-> | [-> | ->]];
      simpl in Hmeth; congruence. }
  split; [exact Hnone|].
  rewrite handleRequest_unfold, Hnone. eexists. split; [reflexivity|].
  unfold notRouted.
  destruct (mountedVerbs theServer _) as [|verb verbs]; simpl;
    repeat split; by rewrite ?lookup_insert_ne.
Qed.

(** X15: the OAuth callback handler looks at nothing in the request and
    keeps what earlier handlers put on the response: on a response nothing
    was written to yet it sets status 200 whatever the status was, sets
    the two content headers, writes the page and ends the response, and
    every other header is as it was. *)
Theorem oauthcallback_keeps_earlier_headers x w :
  content (res x) = None ->
  exists x',
    oauthcallback x w
      = (Ok (x', next),
         with_console (fun c => c ++ [ConsoleLog ["Recibida solicitud a /oauthcallback"]]) w)
    /\ req x' = req x
    /\ statusCode (res x') = 200
    /\ content (res x') = Some (Written htmlContent)
    /\ finished (res x') = true
    /\ headers (res x') !! "Content-Length" = Some "290"
    /\ headers (res x') !! "Content-Type" = Some "text/html"
    /\ forall k, k <> "Content-Length" -> k <> "Content-Type" ->
                 headers (res x') !! k = headers (res x) !! k.
Proof.
  intros Hc. eexists. split; [reflexivity|]. simpl. rewrite Hc.
  repeat split.
  - apply lookup_insert_eq.
  - rewrite lookup_insert_ne by discriminate. apply lookup_insert_eq.
  - intros k H1 H2. by rewrite !lookup_insert_ne.
Qed.

End MoreRoutes.

Lemma messages_handler_sees_prepared_request_witness :
  parses SampleHttp.postHello = true
  /\ exists response,
       (handleRequest SampleHttp.gateway SampleHttp.postHello Sample.world).1 = Ok response
       /\ statusCode response = 200.
Proof.
  split; [reflexivity|].
  destruct (messages_handler_sees_prepared_request SampleHttp.counting SampleHttp.noInvoke
              SampleHttp.keep SampleHttp.postHello Sample.world eq_refl eq_refl eq_refl)
    as (x' & n & w' & Hm & Hh).
  exists (finish (x', n)). unfold SampleHttp.gateway. rewrite Hh. split; [reflexivity|].
  revert Hm. vm_compute. by intros [= <- <- _].
Defined.

Lemma failed_dispatch_answer_witness :
  parses SampleHttp.postHello = true
  /\ exists response,
       (handleRequest (server SampleHttp.crashing SampleHttp.noInvoke SampleHttp.keep)
          SampleHttp.postHello SampleHttp.offline).1 = Ok response
       /\ statusCode response = 500.
Proof.
  split; [reflexivity|].
  destruct (failed_dispatch_answer SampleHttp.crashing SampleHttp.noInvoke SampleHttp.keep
              SampleHttp.postHello SampleHttp.offline SampleHttp.unreachable
              (adapter_process (prepared SampleHttp.postHello)
                 (fun context => run SampleHttp.crashing SampleHttp.noInvoke bot context)
                 (logged (prepared SampleHttp.postHello) SampleHttp.offline)).2
              eq_refl eq_refl eq_refl ltac:(vm_compute; reflexivity))
    as (response & H & Hs & _).
  exists response. rewrite H. split; [reflexivity | exact Hs].
Defined.

Lemma only_posts_touch_state_witness :
  req_method SampleEnv.getMissing <> POST
  /\ memoryStorage (handleRequest SampleHttp.gateway SampleEnv.getMissing Sample.populated).2
     = memoryStorage Sample.populated.
Proof.
  assert (req_method SampleEnv.getMissing <> POST) as H by discriminate.
  split; [exact H|].
  exact (proj1 (only_posts_touch_state SampleHttp.counting SampleHttp.noInvoke SampleHttp.keep
                  SampleEnv.getMissing Sample.populated H)).
Defined.

Lemma other_verbs_are_not_routed_witness :
  req_method SampleEnv.putMessages <> GET
  /\ req_method SampleEnv.putMessages <> POST
  /\ lookupRoute SampleHttp.gateway (sanitized SampleHttp.keep SampleEnv.putMessages) = None.
Proof.
  assert (req_method SampleEnv.putMessages <> GET) as H1 by discriminate.
  assert (req_method SampleEnv.putMessages <> POST) as H2 by discriminate.
  split; [exact H1|]. split; [exact H2|].
  exact (proj1 (other_verbs_are_not_routed SampleHttp.counting SampleHttp.noInvoke
                  SampleHttp.keep SampleEnv.putMessages Sample.world H1 H2)).
Defined.

Lemma oauthcallback_keeps_earlier_headers_witness :
  content (res SampleEnv.tagged) = None
  /\ exists x',
       (oauthcallback SampleEnv.tagged Sample.world).1 = Ok (x', next)
       /\ statusCode (res x') = 200
       /\ headers (res x') !! "X-Request-Id" = Some "42".
Proof.
  split; [reflexivity|].
  destruct (oauthcallback_keeps_earlier_headers SampleEnv.tagged Sample.world eq_refl)
    as (x' & H & _ & Hs & _ & _ & _ & _ & Hk).
  exists x'. rewrite H. split; [reflexivity|]. split; [exact Hs|].
  rewrite Hk by discriminate. reflexivity.
Defined.
